(** * python-novaexchange: the request dispatcher of [novaexchange.py]

    A shallow embedding of the [NovaExchange] client class: its constructor,
    [api_query] (classification of the method string, canonical URL, HMAC
    signature, transport call) and the endpoint wrappers that delegate to it.

    Conventions of the embedding.
    - A Python [str] is a [string]: the sequence of its UTF-8 bytes, so that
      [s.encode('utf-8')] is [list_byte_of_string s].  Splitting on ['/'] and
      comparing with an ASCII literal give the same answers on the bytes as on
      the code points.
    - A Python [int] is a [Z]; a finite [float] is the rational it denotes (a
      [Q]), on which [int()] is truncation toward zero.
    - A wrapper's argument has its documented type, except where the code
      converts it before validating it ([trade]): there it is any of [None],
      [bool], [int], [float], [str], and the conversion may raise.
    - Python objects that are shared and mutated (parameter dicts, client
      instances) live in a store and are passed by reference.
    - The standard-library and third-party collaborators ([hashlib], [hmac],
      [base64], [time], [requests]) are modelled from their specifications:
      FIPS 180-4, RFC 2104 and RFC 4648 for the first three, a clock reading
      and a transport oracle for the last two. *)

From Stdlib Require Import ZArith NArith QArith Qround Lia List String Ascii.
From Stdlib Require Import Init.Byte DecimalString DecimalZ.
From stdpp Require Import base option list gmap strings.

Local Open Scope Z_scope.

(* ===================================================================== *)
(** ** hashlib.sha512 (FIPS 180-4) *)
(* ===================================================================== *)

Module SHA512.

(** 64-bit words are integers in [0, 2^64). *)
Definition modulus : Z := 2 ^ 64.
Definition ones : Z := modulus - 1.

Definition add64 (x y : Z) : Z := (x + y) mod modulus.
Definition SHR (n x : Z) : Z := Z.shiftr x n.
Definition ROTR (n x : Z) : Z :=
  Z.lor (Z.shiftr x n) (Z.land (Z.shiftl x (64 - n)) ones).

Definition Ch (x y z : Z) : Z :=
  Z.lxor (Z.land x y) (Z.land (Z.lxor x ones) z).
Definition Maj (x y z : Z) : Z :=
  Z.lxor (Z.lxor (Z.land x y) (Z.land x z)) (Z.land y z).
Definition Sigma0 (x : Z) : Z :=
  Z.lxor (Z.lxor (ROTR 28 x) (ROTR 34 x)) (ROTR 39 x).
Definition Sigma1 (x : Z) : Z :=
  Z.lxor (Z.lxor (ROTR 14 x) (ROTR 18 x)) (ROTR 41 x).
Definition sigma0 (x : Z) : Z :=
  Z.lxor (Z.lxor (ROTR 1 x) (ROTR 8 x)) (SHR 7 x).
Definition sigma1 (x : Z) : Z :=
  Z.lxor (Z.lxor (ROTR 19 x) (ROTR 61 x)) (SHR 6 x).

Definition K : list Z :=
  [ 0x428a2f98d728ae22; 0x7137449123ef65cd; 0xb5c0fbcfec4d3b2f; 0xe9b5dba58189dbbc;
    0x3956c25bf348b538; 0x59f111f1b605d019; 0x923f82a4af194f9b; 0xab1c5ed5da6d8118;
    0xd807aa98a3030242; 0x12835b0145706fbe; 0x243185be4ee4b28c; 0x550c7dc3d5ffb4e2;
    0x72be5d74f27b896f; 0x80deb1fe3b1696b1; 0x9bdc06a725c71235; 0xc19bf174cf692694;
    0xe49b69c19ef14ad2; 0xefbe4786384f25e3; 0x0fc19dc68b8cd5b5; 0x240ca1cc77ac9c65;
    0x2de92c6f592b0275; 0x4a7484aa6ea6e483; 0x5cb0a9dcbd41fbd4; 0x76f988da831153b5;
    0x983e5152ee66dfab; 0xa831c66d2db43210; 0xb00327c898fb213f; 0xbf597fc7beef0ee4;
    0xc6e00bf33da88fc2; 0xd5a79147930aa725; 0x06ca6351e003826f; 0x142929670a0e6e70;
    0x27b70a8546d22ffc; 0x2e1b21385c26c926; 0x4d2c6dfc5ac42aed; 0x53380d139d95b3df;
    0x650a73548baf63de; 0x766a0abb3c77b2a8; 0x81c2c92e47edaee6; 0x92722c851482353b;
    0xa2bfe8a14cf10364; 0xa81a664bbc423001; 0xc24b8b70d0f89791; 0xc76c51a30654be30;
    0xd192e819d6ef5218; 0xd69906245565a910; 0xf40e35855771202a; 0x106aa07032bbd1b8;
    0x19a4c116b8d2d0c8; 0x1e376c085141ab53; 0x2748774cdf8eeb99; 0x34b0bcb5e19b48a8;
    0x391c0cb3c5c95a63; 0x4ed8aa4ae3418acb; 0x5b9cca4f7763e373; 0x682e6ff3d6b2b8a3;
    0x748f82ee5defb2fc; 0x78a5636f43172f60; 0x84c87814a1f0ab72; 0x8cc702081a6439ec;
    0x90befffa23631e28; 0xa4506cebde82bde9; 0xbef9a3f7b2c67915; 0xc67178f2e372532b;
    0xca273eceea26619c; 0xd186b8c721c0c207; 0xeada7dd6cde0eb1e; 0xf57d4f7fee6ed178;
    0x06f067aa72176fba; 0x0a637dc5a2c898a6; 0x113f9804bef90dae; 0x1b710b35131c471b;
    0x28db77f523047d84; 0x32caab7b40c72493; 0x3c9ebe0a15c9bebc; 0x431d67c49c100d4c;
    0x4cc5d4becb3e42b6; 0x597f299cfc657e2a; 0x5fcb6fab3ad6faec; 0x6c44198c4a475817 ].

Definition H0 : list Z :=
  [ 0x6a09e667f3bcc908; 0xbb67ae8584caa73b; 0x3c6ef372fe94f82b; 0xa54ff53a5f1d36f1;
    0x510e527fade682d1; 0x9b05688c2b3e6c1f; 0x1f83d9abfb41bd6b; 0x5be0cd19137e2179 ].

Definition Z_of_byte (b : byte) : Z := Z.of_N (Byte.to_N b).
Definition byte_of_Z (z : Z) : byte := default x00 (Byte.of_N (Z.to_N z)).

(** Big-endian packing and unpacking. *)
Definition be_decode (bs : list Z) : Z :=
  fold_left (fun acc b => acc * 256 + b) bs 0.

Fixpoint be_encode (n : nat) (x : Z) : list Z :=
  match n with
  | O => []
  | S n' => be_encode n' (x / 256) ++ [x mod 256]
  end.

(** Section 5.1.2: append the bit 1, then zeros, then the 128-bit length,
    up to a multiple of 1024 bits. *)
Definition pad (msg : list Z) : list Z :=
  let len := Z.of_nat (length msg) in
  msg ++ [0x80] ++ repeat 0 (Z.to_nat ((111 - len) mod 128))
      ++ be_encode 16 (8 * len).

Fixpoint chunks {A} (fuel size : nat) (l : list A) : list (list A) :=
  match fuel with
  | O => []
  | S fuel' =>
      match l with
      | [] => []
      | _ => take size l :: chunks fuel' size (drop size l)
      end
  end.

Definition words_of_block (block : list Z) : list Z :=
  map be_decode (chunks 16 8 block).

(** Section 6.4.2, step 1: the message schedule, produced from a sliding
    window of the sixteen most recent words. *)
Fixpoint schedule (n : nat) (window : list Z) : list Z :=
  match n with
  | O => window
  | S n' =>
      match window with
      | [] => []
      | w0 :: rest =>
          let w1 := nth 0 rest 0 in
          let w9 := nth 8 rest 0 in
          let w14 := nth 13 rest 0 in
          let next := add64 (add64 (add64 (sigma1 w14) w9) (sigma0 w1)) w0 in
          w0 :: schedule n' (rest ++ [next])
      end
  end.

Record regs := Regs { ra : Z; rb : Z; rc : Z; rd : Z; re : Z; rf : Z; rg : Z; rh : Z }.

Definition regs_of_list (l : list Z) : regs :=
  Regs (nth 0 l 0) (nth 1 l 0) (nth 2 l 0) (nth 3 l 0)
       (nth 4 l 0) (nth 5 l 0) (nth 6 l 0) (nth 7 l 0).

Definition list_of_regs (r : regs) : list Z :=
  [ra r; rb r; rc r; rd r; re r; rf r; rg r; rh r].

(** Section 6.4.2, step 3: one round. *)
Definition round (r : regs) (kw : Z * Z) : regs :=
  let t1 := add64 (add64 (add64 (add64 (rh r) (Sigma1 (re r)))
                                (Ch (re r) (rf r) (rg r))) (fst kw)) (snd kw) in
  let t2 := add64 (Sigma0 (ra r)) (Maj (ra r) (rb r) (rc r)) in
  Regs (add64 t1 t2) (ra r) (rb r) (rc r) (add64 (rd r) t1) (re r) (rf r) (rg r).

Definition compress (h : list Z) (block : list Z) : list Z :=
  let w := schedule 64 (words_of_block block) in
  let r := fold_left round (combine K w) (regs_of_list h) in
  zip_with add64 h (list_of_regs r).

Definition digest_words (msg : list Z) : list Z :=
  let padded := pad msg in
  fold_left compress (chunks (length padded) 128 padded) H0.

(** [hashlib.sha512(msg).digest()] *)
Definition sha512 (msg : list byte) : list byte :=
  map byte_of_Z (concat (map (be_encode 8) (digest_words (map Z_of_byte msg)))).

Definition block_size : nat := 128.
Definition digest_size : nat := 64.

End SHA512.

(* ===================================================================== *)
(** ** hmac.new(key, msg, hashlib.sha512).digest() (RFC 2104) *)
(* ===================================================================== *)

Module HMAC.

Definition xor_byte (c : Z) (b : byte) : byte :=
  SHA512.byte_of_Z (Z.lxor (SHA512.Z_of_byte b) c).

(** Keys longer than the block are hashed first; the result is
    zero-padded to the block size. *)
Definition block_key (key : list byte) : list byte :=
  let k := if (SHA512.block_size <? length key)%nat then SHA512.sha512 key else key in
  k ++ repeat x00 (SHA512.block_size - length k).

Definition hmac_sha512 (key msg : list byte) : list byte :=
  let k := block_key key in
  let inner := SHA512.sha512 (map (xor_byte 0x36) k ++ msg) in
  SHA512.sha512 (map (xor_byte 0x5c) k ++ inner).

End HMAC.

Module SelfTest.
Definition hex_digit (n : Z) : ascii :=
  default "?"%char (String.get (Z.to_nat n) "0123456789abcdef").
Fixpoint hex (bs : list byte) : string :=
  match bs with
  | [] => EmptyString
  | b :: bs' =>
      let z := SHA512.Z_of_byte b in
      String (hex_digit (z / 16)) (String (hex_digit (z mod 16)) (hex bs'))
  end.
End SelfTest.

(* ===================================================================== *)
(** ** base64.b64encode (RFC 4648, standard alphabet, with padding) *)
(* ===================================================================== *)

Module Base64.
Local Open Scope N_scope.

Definition alphabet : list byte :=
  list_byte_of_string
    "ABCDEFGHIJKLMNOPQRSTUVWXYZabcdefghijklmnopqrstuvwxyz0123456789+/".

Definition pad_char : byte := "=".

Definition b64char (n : N) : byte := nth (N.to_nat n) alphabet pad_char.

Fixpoint index_from (i : N) (c : byte) (l : list byte) : option N :=
  match l with
  | [] => None
  | x :: l' => if Byte.eqb x c then Some i else index_from (N.succ i) c l'
  end.

Definition b64index (c : byte) : option N := index_from 0 c alphabet.

Definition enc3 (a b c : N) : list byte :=
  [ b64char (a / 4); b64char ((a mod 4) * 16 + b / 16);
    b64char ((b mod 16) * 4 + c / 64); b64char (c mod 64) ].

Fixpoint b64encode (l : list byte) : list byte :=
  match l with
  | [] => []
  | [a] =>
      let a := Byte.to_N a in
      [ b64char (a / 4); b64char ((a mod 4) * 16); pad_char; pad_char ]
  | [a; b] =>
      let a := Byte.to_N a in
      let b := Byte.to_N b in
      [ b64char (a / 4); b64char ((a mod 4) * 16 + b / 16);
        b64char ((b mod 16) * 4); pad_char ]
  | a :: b :: c :: rest =>
      enc3 (Byte.to_N a) (Byte.to_N b) (Byte.to_N c) ++ b64encode rest
  end.

Definition byte_of_N (n : N) : byte := default x00 (Byte.of_N n).

(** The inverse, on encoder output: four characters give up to three bytes. *)
Fixpoint b64decode (l : list byte) : option (list byte) :=
  match l with
  | [] => Some []
  | c1 :: c2 :: c3 :: c4 :: rest =>
      s1 ← b64index c1;
      s2 ← b64index c2;
      if Byte.eqb c3 pad_char then
        if Byte.eqb c4 pad_char
        then match rest with
             | [] => Some [byte_of_N (s1 * 4 + s2 / 16)]
             | _ => None
             end
        else None
      else
        s3 ← b64index c3;
        if Byte.eqb c4 pad_char then
          match rest with
          | [] => Some [byte_of_N (s1 * 4 + s2 / 16);
                        byte_of_N ((s2 mod 16) * 16 + s3 / 4)]
          | _ => None
          end
        else
          s4 ← b64index c4;
          tl ← b64decode rest;
          Some (byte_of_N (s1 * 4 + s2 / 16)
                  :: byte_of_N ((s2 mod 16) * 16 + s3 / 4)
                  :: byte_of_N ((s3 mod 4) * 64 + s4) :: tl)
  | _ => None
  end.

End Base64.


(* ===================================================================== *)
(** ** Python built-ins used by the client *)
(* ===================================================================== *)

Module Py.

(** [str(n)] for an [int]: decimal digits, with a leading [-] below zero. *)
Definition str_int (z : Z) : string := NilEmpty.string_of_int (Z.to_int z).

(** [int(x)] for a finite [float]: truncation toward zero. *)
Definition int_float (x : Q) : Z := Z.quot (Qnum x) (Z.pos (Qden x)).

(** [s.encode('utf-8')] *)
Definition encode_utf8 (s : string) : list byte := list_byte_of_string s.

(** [s.split(sep)] for a one-character separator. *)
Fixpoint split (sep : ascii) (s : string) : list string :=
  match s with
  | EmptyString => [EmptyString]
  | String c s' =>
      if Ascii.eqb c sep then EmptyString :: split sep s'
      else match split sep s' with
           | [] => [String c EmptyString]
           | seg :: segs => String c seg :: segs
           end
  end.

(** [l[0]] on the result of [split], which is never empty. *)
Definition item0 (l : list string) : string := hd EmptyString l.

(** [s[i:j]] for [0 <= i <= j]. *)
Definition slice (i j : nat) (s : string) : string := substring i (j - i) s.

End Py.

(* ===================================================================== *)
(** ** The store, the clock and the transport *)
(* ===================================================================== *)

(** Values held in a parameter dict. *)
Inductive pyval :=
| PStr (s : string)
| PBytes (b : list byte)
| PInt (z : Z)
| PFloat (x : Q)
| PInf (negative : bool)
| PNaN.

(** References into the store. *)
Definition loc := nat.

(** The attributes of a [NovaExchange] instance. *)
Record NovaExchange := mkNovaExchange { api_key : string; api_secret : string }.

Inductive http_verb := GET | POST.

(** One call of [requests.get] or [requests.post]: the keyword arguments as
    the library receives them. [rq_data] is the content of the dict passed as
    [data=] at the time of the call. *)
Record http_request := mkRequest {
  rq_verb : http_verb;
  rq_url : string;
  rq_data : option (gmap string pyval);
  rq_headers : list (string * string);
  rq_timeout : option Z
}.

Record response := mkResponse { status_code : Z; text : string }.

Record world := mkWorld {
  w_now : Q;                                (* what [time.time()] returns *)
  w_dicts : list (gmap string pyval);       (* dict objects, by reference *)
  w_objs : list NovaExchange;               (* client instances, by reference *)
  w_sent : list http_request                (* requests issued, oldest first *)
}.

Inductive exn :=
| UnboundLocalError (name : string)
| AttributeError (name : string)
| RequestException (msg : string)
| TypeError
| ValueError
| OverflowError.

Inductive outcome (A : Type) :=
| Return (a : A)
| Raise (e : exn).
Arguments Return {A} a.
Arguments Raise {A} e.

(** *** Argument objects and the conversions [str], [int], [float]

    A [float] is finite, infinite or not a number. The objects a caller
    passes where the code converts its argument are [None], a [bool], an
    [int], a [float] or a [str]. *)
Inductive pyfloat :=
| Finite (x : Q)
| Inf (negative : bool)
| NaN.

Inductive pyobj :=
| ONone
| OBool (b : bool)
| OInt (z : Z)
| OFloat (x : pyfloat)
| OStr (s : string).

(** A float as a dict value. *)
Definition val_of_float (x : pyfloat) : pyval :=
  match x with
  | Finite q => PFloat q
  | Inf negative => PInf negative
  | NaN => PNaN
  end.

(** The parts of the built-ins that are taken as given: the text [str]
    writes for a float, the numerals [int] and [float] accept in a [str]
    ([None] stands for [ValueError]), and the float nearest to an [int]
    ([None] stands for [OverflowError]). *)
Record runtime := mkRuntime {
  float_repr : pyfloat -> string;
  int_of_str : string -> option Z;
  float_of_str : string -> option pyfloat;
  float_of_int : Z -> option pyfloat
}.

(** [str(x)] *)
Definition py_str (rt : runtime) (x : pyobj) : string :=
  match x with
  | ONone => "None"
  | OBool true => "True"
  | OBool false => "False"
  | OInt z => Py.str_int z
  | OFloat f => float_repr rt f
  | OStr s => s
  end.

(** [int(x)] *)
Definition py_int (rt : runtime) (x : pyobj) : outcome Z :=
  match x with
  | ONone => Raise TypeError
  | OBool true => Return 1
  | OBool false => Return 0
  | OInt z => Return z
  | OFloat (Finite q) => Return (Py.int_float q)
  | OFloat (Inf _) => Raise OverflowError
  | OFloat NaN => Raise ValueError
  | OStr s => match int_of_str rt s with
              | Some z => Return z
              | None => Raise ValueError
              end
  end.

(** [float(x)] *)
Definition py_float (rt : runtime) (x : pyobj) : outcome pyfloat :=
  match x with
  | ONone => Raise TypeError
  | OBool true => Return (Finite (1 # 1))
  | OBool false => Return (Finite (0 # 1))
  | OInt z => match float_of_int rt z with
              | Some f => Return f
              | None => Raise OverflowError
              end
  | OFloat f => Return f
  | OStr s => match float_of_str rt s with
              | Some f => Return f
              | None => Raise ValueError
              end
  end.

(** Computations that read and update the world and may raise. *)
Definition M (A : Type) : Type := world -> outcome A * world.

Definition ret {A} (a : A) : M A := fun w => (Return a, w).
Definition raise {A} (e : exn) : M A := fun w => (Raise e, w).
(** A conversion inside a computation: its value, or its exception. *)
Definition of_outcome {A} (o : outcome A) : M A := fun w => (o, w).
Definition bind {A B} (m : M A) (k : A -> M B) : M B :=
  fun w => match m w with
           | (Return a, w') => k a w'
           | (Raise e, w') => (Raise e, w')
           end.

Notation "x <- m ;; k" := (bind m (fun x => k))
  (at level 100, m at next level, right associativity).
Notation "m ;;; k" := (bind m (fun _ => k))
  (at level 100, right associativity).

Definition set_dicts (ds : list (gmap string pyval)) (w : world) : world :=
  mkWorld (w_now w) ds (w_objs w) (w_sent w).
Definition set_objs (os : list NovaExchange) (w : world) : world :=
  mkWorld (w_now w) (w_dicts w) os (w_sent w).
Definition set_sent (rs : list http_request) (w : world) : world :=
  mkWorld (w_now w) (w_dicts w) (w_objs w) rs.
Definition set_now (t : Q) (w : world) : world :=
  mkWorld t (w_dicts w) (w_objs w) (w_sent w).

(** [time.time()] *)
Definition time_time : M Q := fun w => (Return (w_now w), w).

(** A dict display [{...}]: a new object. *)
Definition new_dict (d : gmap string pyval) : M loc :=
  fun w => (Return (length (w_dicts w)), set_dicts (w_dicts w ++ [d]) w).

(** The current content of a dict object (reads nothing for a reference that
    is not in the store). *)
Definition dict_items (l : loc) : M (gmap string pyval) :=
  fun w => (Return (default ∅ (w_dicts w !! l)), w).

(** [d[k] = v] *)
Definition dict_setitem (l : loc) (k : string) (v : pyval) : M unit :=
  fun w => (Return tt, set_dicts (alter (insert k v) l (w_dicts w)) w).

(** [self.api_key], [self.api_secret] *)
Definition getattr {A} (self : loc) (name : string) (field : NovaExchange -> A) : M A :=
  fun w => match w_objs w !! self with
           | Some o => (Return (field o), w)
           | None => (Raise (AttributeError name), w)
           end.

(** [not req] for [req] that is [None] or a dict. *)
Definition not_ (req : option loc) : M bool :=
  match req with
  | None => ret true
  | Some l => d <- dict_items l;; ret (bool_decide (d = ∅))
  end.

(* ===================================================================== *)
(** ** novaexchange.py *)
(* ===================================================================== *)

Definition public_set : gset string :=
  {[ "markets"; "market/info"; "market/orderhistory"; "market/openorders" ]}%string.

Definition private_set : gset string :=
  {[ "getbalances"; "getbalance"; "getdeposits"; "getwithdrawals";
     "getnewdepositaddress"; "getdepositaddress"; "myopenorders";
     "myopenorders_market"; "cancelorder"; "withdraw"; "trade"; "tradehistory";
     "getdeposithistory"; "getwithdrawalhistory"; "walletstatus" ]}%string.

(** What a method of the class returns: the response text, or the tuple of
    strings that the validating wrappers return. *)
Inductive retval :=
| RText (s : string)
| RTuple (items : list string).

Section Client.

(** The remote side: given the requests issued so far and a new one, the
    response [requests] hands back, or the exception it raises. *)
Variable remote : list http_request -> http_request -> outcome response.

(** The built-in conversions, used by [trade]. *)
Variable rt : runtime.

Definition send (rq : http_request) : M response :=
  fun w => (remote (w_sent w) rq, set_sent (w_sent w ++ [rq]) w).

(** [requests.get(url, timeout=t)] *)
Definition requests_get (url : string) (timeout : Z) : M response :=
  send (mkRequest GET url None [] (Some timeout)).

(** [requests.post(url, data=d, headers=h, timeout=t)] *)
Definition requests_post (url : string) (data : loc)
    (headers : list (string * string)) (timeout : Z) : M response :=
  d <- dict_items data;;
  send (mkRequest POST url (Some d) headers (Some timeout)).

(** [NovaExchange.__init__]; an argument is [None] or a [str]. *)
Definition __init__ (api_key api_secret : option string) : M loc :=
  fun w =>
    let self :=
      mkNovaExchange
        (match api_key with Some k => k | None => "" end)
        (match api_secret with Some s => s | None => "" end) in
    (Return (length (w_objs w)), set_objs (w_objs w ++ [self]) w).

Definition api_query (self : loc) (method : string) (req : option loc) : M string :=
  let url := "https://novaexchange.com/remote/v2/"%string in
  empty <- not_ req;;
  req <- (match req with
          | Some l => if empty then new_dict ∅ else ret l
          | None => new_dict ∅
          end);;
  r <- (if String.eqb (Py.slice 0 6 (Py.item0 (Py.split "/" method))) "market" then
          resp <- requests_get (url +:+ method +:+ "/") 60;;
          ret (Some resp)
        else if bool_decide (Py.item0 (Py.split "/" method) ∈ private_set) then
          now <- time_time;;
          let url := url +:+ "private/" +:+ method +:+ "/" +:+ "?nonce="
                         +:+ Py.str_int (Py.int_float now) in
          key <- getattr self "api_key" api_key;;
          dict_setitem req "apikey" (PStr key);;;
          secret <- getattr self "api_secret" api_secret;;
          dict_setitem req "signature"
            (PBytes (Base64.b64encode
                       (HMAC.hmac_sha512 (Py.encode_utf8 secret) (Py.encode_utf8 url))));;;
          let headers := [("content-type", "application/x-www-form-urlencoded")]%string in
          resp <- requests_post url req headers 60;;
          ret (Some resp)
        else ret None);;
  match r with
  | Some resp => ret (text resp)
  | None => raise (UnboundLocalError "r")
  end.

Definition query_text (self : loc) (method : string) (req : option loc) : M retval :=
  s <- api_query self method req;; ret (RText s).

(** *** Public methods *)

Definition markets (self : loc) : M retval :=
  query_text self "markets" None.

Definition market_info (self : loc) (market : string) : M retval :=
  query_text self ("market/info/" +:+ market) None.

Definition market_order_history (self : loc) (market : string) : M retval :=
  query_text self ("market/orderhistory/" +:+ market) None.

Definition market_open_orders (self : loc) (market ordertype : string) : M retval :=
  let order_options := ["BUY"; "SELL"; "BOTH"]%string in
  if bool_decide (ordertype ∈ order_options) then
    query_text self ("market/openorders/" +:+ market +:+ "/" +:+ ordertype) None
  else
    ret (RTuple [ordertype; "is not a valid ordertype. please use BUY, SELL, or BOTH."]%string).

(** *** Private methods *)

Definition get_balances (self : loc) : M retval :=
  query_text self "getbalances" None.

Definition get_balance (self : loc) (currency : string) : M retval :=
  query_text self ("getbalance/" +:+ currency) None.

Definition get_deposits (self : loc) : M retval :=
  query_text self "getdeposits" None.

Definition get_withdrawals (self : loc) : M retval :=
  query_text self "getwithdrawals" None.

Definition get_new_deposit_address (self : loc) (currency : string) : M retval :=
  query_text self ("getnewdepositaddress/" +:+ currency) None.

Definition get_deposit_address (self : loc) (currency : string) : M retval :=
  query_text self ("getdepositaddress/" +:+ currency) None.

Definition my_open_orders (self : loc) : M retval :=
  query_text self "myopenorders" None.

Definition my_open_orders_market (self : loc) (market : string) : M retval :=
  query_text self ("myopenorders_market/" +:+ market) None.

Definition cancel_order (self : loc) (order_id : Z) : M retval :=
  query_text self ("cancelorder/" +:+ Py.str_int order_id) None.

Definition withdraw (self : loc) (currency : string) (amount : Q) (address : string)
    : M retval :=
  req <- new_dict (<["currency" := PStr currency]>
                  (<["amount" := PFloat amount]>
                  (<["address" := PStr address]> ∅)));;
  query_text self ("withdraw/" +:+ currency) (Some req).

(** [trade] converts four of its arguments before it validates them:
    [tradetype], [tradeamount], [tradeprice] and [tradebase] are any of the
    argument objects. *)
Definition trade (self : loc) (market : string)
    (tradetype tradeamount tradeprice tradebase : pyobj) : M retval :=
  let tradetype := py_str rt tradetype in
  tradebase <- of_outcome (py_int rt tradebase);;
  tradeamount <- of_outcome (py_float rt tradeamount);;
  tradeprice <- of_outcome (py_float rt tradeprice);;
  if (String.eqb tradetype "BUY" || String.eqb tradetype "SELL")%bool then
    if ((tradebase =? 0) || (tradebase =? 1))%bool then
      req <- new_dict (<["tradetype" := PStr tradetype]>
                      (<["tradebase" := PInt tradebase]>
                      (<["tradeprice" := val_of_float tradeprice]>
                      (<["tradeamount" := val_of_float tradeamount]> ∅))));;
      query_text self ("trade/" +:+ market) (Some req)
    else
      ret (RTuple ["tradebase"; Py.str_int tradebase;
                   "is invalid (Set as 0 for market currency or 1 for basecurrency as tradeamount)"]%string)
  else
    ret (RTuple ["trade type"; tradetype; "is invalid. (Set as  BUY or SELL)"]%string).

Definition trade_history (self : loc) : M retval :=
  query_text self "tradehistory" None.

Definition get_deposit_history (self : loc) : M retval :=
  query_text self "getdeposithistory" None.

Definition get_withdrawal_history (self : loc) : M retval :=
  query_text self "getwithdrawalhistory" None.

Definition wallet_status (self : loc) (currency : option string) : M retval :=
  match currency with
  | None => query_text self "walletstatus" None
  | Some c => query_text self ("walletstatus/" +:+ c) None
  end.

(** *** Clients of the class

    A use of an instance is a call of one of its methods; between calls the
    clock moves. *)
Inductive call :=
| Api_query (method : string) (req : option loc)
| Markets
| Market_info (market : string)
| Market_order_history (market : string)
| Market_open_orders (market ordertype : string)
| Get_balances
| Get_balance (currency : string)
| Get_deposits
| Get_withdrawals
| Get_new_deposit_address (currency : string)
| Get_deposit_address (currency : string)
| My_open_orders
| My_open_orders_market (market : string)
| Cancel_order (order_id : Z)
| Withdraw (currency : string) (amount : Q) (address : string)
| Trade (market : string) (tradetype tradeamount tradeprice tradebase : pyobj)
| Trade_history
| Get_deposit_history
| Get_withdrawal_history
| Wallet_status (currency : option string).

Definition invoke (self : loc) (c : call) : M retval :=
  match c with
  | Api_query method req => query_text self method req
  | Markets => markets self
  | Market_info m => market_info self m
  | Market_order_history m => market_order_history self m
  | Market_open_orders m o => market_open_orders self m o
  | Get_balances => get_balances self
  | Get_balance c => get_balance self c
  | Get_deposits => get_deposits self
  | Get_withdrawals => get_withdrawals self
  | Get_new_deposit_address c => get_new_deposit_address self c
  | Get_deposit_address c => get_deposit_address self c
  | My_open_orders => my_open_orders self
  | My_open_orders_market m => my_open_orders_market self m
  | Cancel_order i => cancel_order self i
  | Withdraw c a d => withdraw self c a d
  | Trade m t a p b => trade self m t a p b
  | Trade_history => trade_history self
  | Get_deposit_history => get_deposit_history self
  | Get_withdrawal_history => get_withdrawal_history self
  | Wallet_status c => wallet_status self c
  end.

(** What a program does with the class: it constructs an instance or calls
    a method of one. *)
Inductive action :=
| New (api_key api_secret : option string)
| Call (self : loc) (c : call).

Definition perform (a : action) (w : world) : world :=
  match a with
  | New k s => snd (__init__ k s w)
  | Call self c => snd (invoke self c w)
  end.

(** Each action happens at its own clock reading; an exception ends that
    action only. *)
Fixpoint run (acts : list (Q * action)) (w : world) : world :=
  match acts with
  | [] => w
  | (t, a) :: rest => run rest (perform a (set_now t w))
  end.

End Client.

(* ===================================================================== *)
(** ** Observations on a run *)
(* ===================================================================== *)

(** The requests issued between two states of the world. *)
Definition issued (w w' : world) : list http_request :=
  drop (length (w_sent w)) (w_sent w').

(** The fields of the form body [requests] builds from [data=]: one per key
    of the dict, none without [data=]. *)
Definition form_fields (rq : http_request) : list (string * pyval) :=
  match rq_data rq with
  | Some d => map_to_list d
  | None => []
  end.

Definition fields_named (name : string) (rq : http_request) : list pyval :=
  snd <$> filter (fun kv => fst kv = name) (form_fields rq).

(** The effect of [if not req: req = {}]: whether a new dict is made, the
    reference [req] is bound to afterwards, its content, and the world. *)
Definition replaced (req : option loc) (w : world) : bool :=
  match req with
  | None => true
  | Some l => bool_decide (default (∅ : gmap string pyval) (w_dicts w !! l) = ∅)
  end.

Definition bound_req (req : option loc) (w : world) : loc :=
  match req with
  | Some l => if replaced req w then length (w_dicts w) else l
  | None => length (w_dicts w)
  end.

Definition bound_items (req : option loc) (w : world) : gmap string pyval :=
  match req with
  | Some l => if replaced req w then ∅ else default ∅ (w_dicts w !! l)
  | None => ∅
  end.

Definition after_default (req : option loc) (w : world) : world :=
  if replaced req w then set_dicts (w_dicts w ++ [∅]) w else w.

(** What the caller gets back from a transport call: the body text of the
    response, or the exception. *)
Definition reply (remote : list http_request -> http_request -> outcome response)
    (w : world) (rq : http_request) : outcome string :=
  match remote (w_sent w) rq with
  | Return r => Return (text r)
  | Raise e => Raise e
  end.

(* ===================================================================== *)
(** ** The dispatcher as the specification words it *)
(* ===================================================================== *)

Module Spec.

Definition base : string := "https://novaexchange.com/remote/v2".

(** "the first path segment (text up to the first [/])" *)
Fixpoint first_segment (method : string) : string :=
  match method with
  | EmptyString => EmptyString
  | String c rest =>
      if Ascii.eqb c "/" then EmptyString else String c (first_segment rest)
  end.

(** "the first 6 characters of the first path segment equal the literal
    [market]" *)
Definition market_prefix (method : string) : bool :=
  String.prefix "market" (first_segment method).

(** The private-method set of section 6. *)
Definition private_methods : list string :=
  [ "getbalances"; "getbalance"; "getdeposits"; "getwithdrawals";
    "getnewdepositaddress"; "getdepositaddress"; "myopenorders";
    "myopenorders_market"; "cancelorder"; "withdraw"; "trade"; "tradehistory";
    "getdeposithistory"; "getwithdrawalhistory"; "walletstatus" ]%string.

Definition private_member (method : string) : bool :=
  existsb (String.eqb (first_segment method)) private_methods.

Inductive family := Market | Private | Other.

(** The classification rule, market prefix first. *)
Definition classify (method : string) : family :=
  if market_prefix method then Market
  else if private_member method then Private
  else Other.

(** [{base}/{method}/] *)
Definition public_url (method : string) : string :=
  base +:+ "/" +:+ method +:+ "/".

(** [{base}/private/{method}/?nonce={nonce}] *)
Definition canonical_url (method nonce : string) : string :=
  base +:+ "/private/" +:+ method +:+ "/?nonce=" +:+ nonce.

(** base64(HMAC-SHA512(key = secret bytes, message = URL bytes)) *)
Definition signature (secret url : string) : list byte :=
  Base64.b64encode
    (HMAC.hmac_sha512 (list_byte_of_string secret) (list_byte_of_string url)).

(** The public path: a GET of [{base}/{method}/], 60-second timeout. *)
Definition public_request (method : string) : http_request :=
  mkRequest GET (public_url method) None [] (Some 60).

(** The private path: a POST to the canonical URL of the parameter mapping
    with [apikey] and [signature] inserted, as a form, 60-second timeout. *)
Definition private_request (key secret method nonce : string)
    (params : gmap string pyval) : http_request :=
  let url := canonical_url method nonce in
  mkRequest POST url
    (Some (<["signature" := PBytes (signature secret url)]>
           (<["apikey" := PStr key]> params)))
    [("content-type", "application/x-www-form-urlencoded")]%string
    (Some 60).

End Spec.

(** The world after the private branch: the dict [req] is bound to has
    received [apikey] and [signature], and one request has been issued. *)
Definition after_private (o : NovaExchange) (method : string) (req : option loc)
    (w : world) : world :=
  let rq := Spec.private_request (api_key o) (api_secret o) method
              (Py.str_int (Py.int_float (w_now w))) (bound_items req w) in
  let w1 := after_default req w in
  set_sent (w_sent w ++ [rq])
    (set_dicts (<[bound_req req w := default ∅ (rq_data rq)]> (w_dicts w1)) w1).

(** A computation that leaves the client instances of the store alone. *)
Definition keeps_objs {A} (m : M A) : Prop :=
  forall w : world, w_objs (snd (m w)) = w_objs w.

(** A computation that issues at most one request, with the 60-second
    timeout, and leaves the requests issued before in place. *)
Definition one_attempt {A} (m : M A) : Prop :=
  forall w : world,
    exists rqs : list http_request,
      w_sent (snd (m w)) = w_sent w ++ rqs /\
      (length rqs <= 1)%nat /\
      Forall (fun rq => rq_timeout rq = Some 60) rqs.

(** A computation that leaves every dict of the store as it is, except
    possibly the one at [l]. *)
Definition writes_only {A} (l : option loc) (m : M A) : Prop :=
  forall (w : world) (l' : loc) (d : gmap string pyval),
    Some l' <> l -> w_dicts w !! l' = Some d -> w_dicts (snd (m w)) !! l' = Some d.

(** The verbs of the requests issued between two states of the world. *)
Definition verbs_issued (w w' : world) : list http_verb :=
  rq_verb <$> issued w w'.

(** ** A concrete setting to run the client in *)

Module Sample.

(** A remote side that answers every request with an empty JSON object. *)
Definition remote : list http_request -> http_request -> outcome response :=
  fun _ _ => Return (mkResponse 200 "{}").

(** A remote side that is down. *)
Definition unreachable : list http_request -> http_request -> outcome response :=
  fun _ _ => Raise (RequestException "ConnectionError").

Definition client : NovaExchange := mkNovaExchange "KEY" "SECRET".

(** One client instance at reference 0, one caller-owned dict at
    reference 0, clock at 1700000000.25 seconds. *)
Definition params : gmap string pyval :=
  <["apikey" := PStr "stale"]> (<["currency" := PStr "BTC"]> ∅).

Definition world0 : world :=
  mkWorld (6800000001 # 4) [params] [client] [].

(** A stand-in for the built-ins taken as given: [int] and [float] read a
    [str] that is a plain decimal integer and refuse the rest, every [int]
    has a float, and [str] writes a float as its integer part. *)
Definition parse_int (s : string) : option Z :=
  match s with
  | EmptyString => None
  | _ => option_map Z.of_int (NilEmpty.int_of_string s)
  end.

Definition builtins : runtime :=
  mkRuntime
    (fun f => match f with
              | Finite x => Py.str_int (Py.int_float x) +:+ ".0"
              | Inf true => "-inf"
              | Inf false => "inf"
              | NaN => "nan"
              end)
    parse_int
    (fun s => option_map (fun z => Finite (inject_Z z)) (parse_int s))
    (fun z => Some (Finite (inject_Z z))).

End Sample.

(** The cryptographic primitives are never unfolded by simplification. *)
Arguments SHA512.sha512 : simpl never.
Arguments HMAC.hmac_sha512 : simpl never.
Arguments Base64.b64encode : simpl never.
Arguments Py.str_int : simpl never.
Arguments Py.int_float : simpl never.
(** The FIPS 180-4 example digest of ["abc"]. *)
Example sha512_abc :
  SelfTest.hex (SHA512.sha512 (list_byte_of_string "abc")) =
  "ddaf35a193617abacc417349ae20413112e6fa4e89a97ea20a9eeee64b55d39a2192992a274fc1a836ba3c23a3feebbd454d4423643ce80e2a9ac94fa54ca49f"%string.
Proof. vm_compute. reflexivity. Qed.

(** RFC 4231, test case 2. *)
Example hmac_sha512_rfc4231_2 :
  SelfTest.hex (HMAC.hmac_sha512 (list_byte_of_string "Jefe")
                  (list_byte_of_string "what do ya want for nothing?")) =
  "164b7a7bfcf819e2e395fbe73b56e0a387bd64222e831fd610270cd7ea2505549758bf75c05a994a6d034f65f8f0e6fdcaeab1a34d4a6b4b636e070a38bce737"%string.
Proof. vm_compute. reflexivity. Qed.

Example b64encode_foobar :
  map Base64.b64encode (map list_byte_of_string ["foobar"; "fooba"; "foob"; ""]%string)
  = map list_byte_of_string ["Zm9vYmFy"; "Zm9vYmE="; "Zm9vYg=="; ""]%string.
Proof. vm_compute. reflexivity. Qed.

Example b64_hmac_rfc4231_2 :
  Base64.b64encode (HMAC.hmac_sha512 (list_byte_of_string "Jefe")
                      (list_byte_of_string "what do ya want for nothing?")) =
  list_byte_of_string
    "Fkt6e/z4GeLjlfvnO1bgo4e9ZCIugx/WECcM1+olBVSXWL91wFqZSm0DT2X48Ob9yuqxo01Ka0tjbgcKOLznNw==".
Proof. vm_compute. reflexivity. Qed.

Section Base64_facts.
Import Base64.
Local Open Scope N_scope.

Lemma b64index_b64char (n : N) : n < 64 -> b64index (b64char n) = Some n.
Proof.
  intros Hn.
  assert (Hall : forallb (fun k => match b64index (b64char k) with
                                   | Some j => N.eqb j k
                                   | None => false
                                   end)
                   (map N.of_nat (seq 0 64)) = true) by (vm_compute; reflexivity).
  rewrite forallb_forall in Hall.
  specialize (Hall n).
  assert (Hin : In n (map N.of_nat (seq 0 64))).
  { apply in_map_iff. exists (N.to_nat n). split; [lia|]. apply in_seq. lia. }
  specialize (Hall Hin).
  destruct (b64index (b64char n)); [|discriminate].
  apply N.eqb_eq in Hall. congruence.
Qed.

Lemma b64char_not_pad (n : N) : n < 64 -> Byte.eqb (b64char n) pad_char = false.
Proof.
  intros Hn.
  assert (Hall : forallb (fun k => negb (Byte.eqb (b64char k) pad_char))
                   (map N.of_nat (seq 0 64)) = true) by (vm_compute; reflexivity).
  rewrite forallb_forall in Hall.
  specialize (Hall n).
  assert (Hin : In n (map N.of_nat (seq 0 64))).
  { apply in_map_iff. exists (N.to_nat n). split; [lia|]. apply in_seq. lia. }
  specialize (Hall Hin). now apply negb_true_iff in Hall.
Qed.

Lemma byte_of_to_N (b : byte) : byte_of_N (Byte.to_N b) = b.
Proof. unfold byte_of_N. now rewrite Byte.of_to_N. Qed.

Lemma to_N_lt (b : byte) : Byte.to_N b < 256.
Proof. pose proof (Byte.to_N_bounded b). lia. Qed.

Ltac divlia := zify; Z.to_euclidean_division_equations; lia.

Lemma sextets_bounded (a b c : N) :
  a < 256 -> b < 256 -> c < 256 ->
  a / 4 < 64 /\ (a mod 4) * 16 + b / 16 < 64 /\
  (b mod 16) * 4 + c / 64 < 64 /\ c mod 64 < 64.
Proof. intros. repeat split; divlia. Qed.

Lemma octets_recovered (a b c : N) :
  a < 256 -> b < 256 -> c < 256 ->
  (a / 4) * 4 + ((a mod 4) * 16 + b / 16) / 16 = a /\
  (((a mod 4) * 16 + b / 16) mod 16) * 16 + ((b mod 16) * 4 + c / 64) / 4 = b /\
  (((b mod 16) * 4 + c / 64) mod 4) * 64 + c mod 64 = c.
Proof. intros. repeat split; divlia. Qed.

Lemma b64decode_quad (s1 s2 s3 s4 : N) (rest : list byte) :
  s1 < 64 -> s2 < 64 -> s3 < 64 -> s4 < 64 ->
  b64decode (b64char s1 :: b64char s2 :: b64char s3 :: b64char s4 :: rest)
  = match b64decode rest with
    | Some tl => Some (byte_of_N (s1 * 4 + s2 / 16)
                         :: byte_of_N ((s2 mod 16) * 16 + s3 / 4)
                         :: byte_of_N ((s3 mod 4) * 64 + s4) :: tl)
    | None => None
    end.
Proof.
  intros H1 H2 H3 H4. cbn [b64decode].
  rewrite !b64index_b64char, !b64char_not_pad by assumption.
  cbn [mbind option_bind]. destruct (b64decode rest); reflexivity.
Qed.

Lemma b64decode_pad1 (s1 s2 s3 : N) :
  s1 < 64 -> s2 < 64 -> s3 < 64 ->
  b64decode [b64char s1; b64char s2; b64char s3; pad_char]
  = Some [byte_of_N (s1 * 4 + s2 / 16); byte_of_N ((s2 mod 16) * 16 + s3 / 4)].
Proof.
  intros H1 H2 H3. cbn [b64decode].
  rewrite !b64index_b64char, !b64char_not_pad by assumption.
  reflexivity.
Qed.

Lemma b64decode_pad2 (s1 s2 : N) :
  s1 < 64 -> s2 < 64 ->
  b64decode [b64char s1; b64char s2; pad_char; pad_char]
  = Some [byte_of_N (s1 * 4 + s2 / 16)].
Proof.
  intros H1 H2. cbn [b64decode].
  rewrite !b64index_b64char by assumption. reflexivity.
Qed.

(** Decoding undoes encoding. *)
Lemma b64decode_b64encode (l : list byte) : b64decode (b64encode l) = Some l.
Proof.
  remember (length l) as n eqn:Hn.
  revert l Hn. induction n as [n IH] using lt_wf_ind. intros l Hn.
  destruct l as [|a [|b [|c rest]]].
  - reflexivity.
  - change (b64encode [a]) with
      [b64char (Byte.to_N a / 4); b64char ((Byte.to_N a mod 4) * 16); pad_char; pad_char].
    pose proof (to_N_lt a).
    rewrite b64decode_pad2 by divlia.
    replace (Byte.to_N a / 4 * 4 + Byte.to_N a mod 4 * 16 / 16) with (Byte.to_N a) by divlia.
    now rewrite byte_of_to_N.
  - change (b64encode [a; b]) with
      [b64char (Byte.to_N a / 4);
       b64char ((Byte.to_N a mod 4) * 16 + Byte.to_N b / 16);
       b64char ((Byte.to_N b mod 16) * 4); pad_char].
    pose proof (to_N_lt a). pose proof (to_N_lt b).
    rewrite b64decode_pad1 by divlia.
    replace (Byte.to_N a / 4 * 4 + (Byte.to_N a mod 4 * 16 + Byte.to_N b / 16) / 16)
      with (Byte.to_N a) by divlia.
    replace ((Byte.to_N a mod 4 * 16 + Byte.to_N b / 16) mod 16 * 16
             + Byte.to_N b mod 16 * 4 / 4)
      with (Byte.to_N b) by divlia.
    now rewrite !byte_of_to_N.
  - change (b64encode (a :: b :: c :: rest)) with
      (enc3 (Byte.to_N a) (Byte.to_N b) (Byte.to_N c) ++ b64encode rest).
    unfold enc3. cbn [app].
    pose proof (to_N_lt a) as Ha. pose proof (to_N_lt b) as Hb.
    pose proof (to_N_lt c) as Hc.
    destruct (sextets_bounded _ _ _ Ha Hb Hc) as (B1 & B2 & B3 & B4).
    destruct (octets_recovered _ _ _ Ha Hb Hc) as (E1 & E2 & E3).
    rewrite b64decode_quad by assumption.
    rewrite E1, E2, E3, !byte_of_to_N.
    rewrite (IH (length rest)) by (subst n; simpl; lia || reflexivity).
    reflexivity.
Qed.

(** Hence two byte strings with the same encoding are the same. *)
Lemma b64encode_inj (l1 l2 : list byte) : b64encode l1 = b64encode l2 -> l1 = l2.
Proof.
  intros H. apply (f_equal b64decode) in H.
  rewrite !b64decode_b64encode in H. congruence.
Qed.

End Base64_facts.

(* ===================================================================== *)
(** ** The client run on concrete calls *)
(* ===================================================================== *)

(** [get_balances()] at clock reading 1700000000.25 with key [KEY] and secret
    [SECRET]: the request that leaves, with the signature Python computes for
    the same inputs. *)
Example get_balances_sample :
  issued Sample.world0 (snd (get_balances Sample.remote 0%nat Sample.world0))
  = [mkRequest POST
       "https://novaexchange.com/remote/v2/private/getbalances/?nonce=1700000000"
       (Some (<["apikey" := PStr "KEY"]>
              (<["signature" := PBytes (list_byte_of_string
                 "K5wZz8KccUaE1fa8fKNGCE5+jJDzEa0U010TMrZzf5OULZiYD0eAm34g3JK25jCo/vaKA8W0YrFp79Sb5/14yg==")]>
               ∅)))
       [("content-type", "application/x-www-form-urlencoded")]%string
       (Some 60)].
Proof. vm_compute. reflexivity. Qed.

(** [market_info("LTC_MEOW")] issues a GET to [{base}/market/info/LTC_MEOW/]. *)
Example market_info_sample :
  market_info Sample.remote 0%nat "LTC_MEOW" (mkWorld (1 # 1) [] [Sample.client] [])
  = (Return (RText "{}"),
     mkWorld (1 # 1) [∅] [Sample.client]
       [mkRequest GET "https://novaexchange.com/remote/v2/market/info/LTC_MEOW/"
          None [] (Some 60)]).
Proof. vm_compute. reflexivity. Qed.

(** [wallet_status()] dispatches [walletstatus], [wallet_status("LTC")]
    dispatches [walletstatus/LTC]. *)
Example wallet_status_sample :
  wallet_status Sample.remote 0%nat None Sample.world0
    = query_text Sample.remote 0%nat "walletstatus" None Sample.world0 /\
  wallet_status Sample.remote 0%nat (Some "LTC"%string) Sample.world0
    = query_text Sample.remote 0%nat "walletstatus/LTC" None Sample.world0.
Proof. split; reflexivity. Qed.

(** A transport failure reaches the caller, after the request has left. *)
Example unreachable_sample :
  let result := markets Sample.unreachable 0%nat Sample.world0 in
  fst result = Raise (RequestException "ConnectionError") /\
  verbs_issued Sample.world0 (snd result) = [GET].
Proof. vm_compute. split; reflexivity. Qed.

(** [int] truncates toward zero. *)
Example int_float_samples :
  map Py.int_float [(7 # 2); (-7 # 2); (-1 # 2); (1 # 2); (0 # 1)]%Q = [3; -3; 0; 0; 0].
Proof. reflexivity. Qed.

(** [split] and the six-character slice. *)
Example split_samples :
  Py.split "/" "market/info/LTC_MEOW" = ["market"; "info"; "LTC_MEOW"]%string /\
  Py.split "/" "" = [""]%string /\
  Py.split "/" "/a//" = [""; "a"; ""; ""]%string /\
  Py.slice 0 6 "markets" = "market"%string /\
  Py.slice 0 6 "mark" = "mark"%string.
Proof. repeat split. Qed.

(* ===================================================================== *)
(** ** Strings: segments, slices, decimal numerals *)
(* ===================================================================== *)

Section String_facts.

Lemma split_not_nil (sep : ascii) (s : string) : Py.split sep s <> [].
Proof.
  destruct s as [|c s]; simpl; [discriminate|].
  destruct (Ascii.eqb c sep); [discriminate|].
  destruct (Py.split sep s); discriminate.
Qed.

(** [method.split('/')[0]] is the text up to the first slash. *)
Lemma item0_split (s : string) :
  Py.item0 (Py.split "/" s) = Spec.first_segment s.
Proof.
  induction s as [|c s IH]; simpl; [reflexivity|].
  destruct (Ascii.eqb c "/"); [reflexivity|].
  unfold Py.item0 in IH.
  destruct (Py.split "/" s) as [|seg segs] eqn:E.
  - now apply split_not_nil in E.
  - simpl in *. now rewrite IH.
Qed.

(** Comparing a slice of the right length with a literal is a prefix test. *)
Lemma slice_eqb_prefix (p s : string) :
  String.eqb (Py.slice 0 (String.length p) s) p = String.prefix p s.
Proof.
  unfold Py.slice. rewrite Nat.sub_0_r.
  revert s. induction p as [|a p IH]; intros s.
  - destruct s; reflexivity.
  - destruct s as [|b s]; simpl; [reflexivity|].
    rewrite IH. destruct (ascii_dec a b) as [->|Hne].
    + now rewrite Ascii.eqb_refl.
    + destruct (Ascii.eqb b a) eqn:E; [|reflexivity].
      apply Ascii.eqb_eq in E. congruence.
Qed.

Lemma market_test (method : string) :
  String.eqb (Py.slice 0 6 (Py.item0 (Py.split "/" method))) "market"
  = Spec.market_prefix method.
Proof.
  rewrite item0_split. exact (slice_eqb_prefix "market" _).
Qed.

Lemma private_set_members (seg : string) :
  seg ∈ private_set <-> In seg Spec.private_methods.
Proof.
  unfold private_set, Spec.private_methods.
  rewrite !elem_of_union, !elem_of_singleton. simpl. intuition.
Qed.

Lemma private_test (method : string) :
  bool_decide (Py.item0 (Py.split "/" method) ∈ private_set)
  = Spec.private_member method.
Proof.
  rewrite item0_split. unfold Spec.private_member.
  destruct (existsb _ _) eqn:E.
  - apply bool_decide_eq_true, private_set_members.
    apply existsb_exists in E as (x & Hin & Hx).
    apply String.eqb_eq in Hx. now subst.
  - apply bool_decide_eq_false. intros Hin%private_set_members.
    assert (existsb (String.eqb (Spec.first_segment method)) Spec.private_methods = true);
      [|congruence].
    apply existsb_exists. eexists; split; [exact Hin|]. apply String.eqb_refl.
Qed.

(** No private method name starts with [market], so the order of the two
    tests never decides the family of a private method. *)
Lemma private_not_market (method : string) :
  Spec.private_member method = true -> Spec.market_prefix method = false.
Proof.
  unfold Spec.private_member, Spec.market_prefix. intros H.
  apply existsb_exists in H as (x & Hin & Hx).
  apply String.eqb_eq in Hx. rewrite Hx.
  simpl in Hin.
  repeat (destruct Hin as [<-|Hin]; [reflexivity|]). destruct Hin.
Qed.

(** Decimal numerals are unambiguous. *)
Lemma str_int_inj (a b : Z) : Py.str_int a = Py.str_int b -> a = b.
Proof.
  unfold Py.str_int. intros H.
  apply (f_equal NilEmpty.int_of_string) in H.
  rewrite !NilEmpty.isi in H.
  injection H as H. apply (f_equal Z.of_int) in H.
  now rewrite !DecimalZ.of_to in H.
Qed.

Lemma append_inv_head (p a b : string) : p +:+ a = p +:+ b -> a = b.
Proof.
  induction p as [|c p IH]; simpl; intros H; [exact H|].
  injection H as H. auto.
Qed.

Lemma canonical_url_inj (method n1 n2 : string) :
  Spec.canonical_url method n1 = Spec.canonical_url method n2 -> n1 = n2.
Proof.
  unfold Spec.canonical_url. intros H.
  do 4 apply append_inv_head in H. exact H.
Qed.

Lemma list_byte_of_string_inj (a b : string) :
  list_byte_of_string a = list_byte_of_string b -> a = b.
Proof.
  intros H. apply (f_equal string_of_list_byte) in H.
  now rewrite !string_of_list_byte_of_string in H.
Qed.

End String_facts.

(* ===================================================================== *)
(** ** The clock: whole seconds *)
(* ===================================================================== *)

Section Clock_facts.


Lemma int_float_nonneg (t : Q) : (0 <= t)%Q -> 0 <= Py.int_float t.
Proof.
  destruct t as [a b]. unfold Qle, Py.int_float. simpl. intros H.
  apply Z.quot_pos; lia.
Qed.

(** A second later, the whole-second reading is larger. *)
Lemma int_float_next_second (t1 t2 : Q) :
  (0 <= t1)%Q -> (t1 + 1 <= t2)%Q -> Py.int_float t1 < Py.int_float t2.
Proof.
  destruct t1 as [a b], t2 as [c d].
  unfold Qle, Qplus, Py.int_float. simpl. intros H0 H1.
  rewrite Z.mul_1_r in H0. rewrite Z.mul_1_r, Pos.mul_1_r in H1.
  assert (Hc : 0 <= c) by nia.
  rewrite !Z.quot_div_nonneg by lia.
  pose proof (Z.mul_div_le a (Z.pos b) ltac:(lia)) as Ha.
  pose proof (Z.mul_succ_div_gt c (Z.pos d) ltac:(lia)) as Hd.
  assert (Hq : 0 <= a / Z.pos b) by (apply Z.div_pos; lia).
  assert (Hr : 0 <= c / Z.pos d) by (apply Z.div_pos; lia).
  destruct (Z_lt_le_dec (a / Z.pos b) (c / Z.pos d)) as [Hlt|Hge]; [exact Hlt|].
  exfalso.
  assert (c < Z.pos d * (a / Z.pos b + 1)) by nia.
  assert (c * Z.pos b < Z.pos d * (a + Z.pos b)) by nia.
  nia.
Qed.

Lemma nonce_next_second (t1 t2 : Q) :
  (0 <= t1)%Q -> (t1 + 1 <= t2)%Q ->
  Py.str_int (Py.int_float t1) <> Py.str_int (Py.int_float t2).
Proof.
  intros H0 H1 E. apply str_int_inj in E.
  pose proof (int_float_next_second t1 t2 H0 H1). lia.
Qed.

End Clock_facts.

(* ===================================================================== *)
(** ** What [api_query] does, branch by branch *)
(* ===================================================================== *)

Section Dispatch_facts.

Variable remote : list http_request -> http_request -> outcome response.

Lemma after_default_sent req w : w_sent (after_default req w) = w_sent w.
Proof. unfold after_default. now destruct (replaced req w). Qed.

Lemma after_default_objs req w : w_objs (after_default req w) = w_objs w.
Proof. unfold after_default. now destruct (replaced req w). Qed.

Lemma after_default_now req w : w_now (after_default req w) = w_now w.
Proof. unfold after_default. now destruct (replaced req w). Qed.

(** [if not req: req = {}] leaves every dict of the store as it is. *)
Lemma after_default_dicts req w l d :
  w_dicts w !! l = Some d -> w_dicts (after_default req w) !! l = Some d.
Proof.
  unfold after_default. destruct (replaced req w); [|auto].
  simpl. apply lookup_app_l_Some.
Qed.

(** Afterwards [req] is bound to a dict of the store. *)
Lemma bound_req_items req w :
  w_dicts (after_default req w) !! bound_req req w = Some (bound_items req w).
Proof.
  unfold after_default, bound_req, bound_items.
  destruct req as [l|]; simpl.
  - destruct (bool_decide _) eqn:E; simpl.
    + rewrite lookup_app_r by lia. now rewrite Nat.sub_diag.
    + apply bool_decide_eq_false in E.
      destruct (w_dicts w !! l); [reflexivity|]. now destruct E.
  - rewrite lookup_app_r by lia. now rewrite Nat.sub_diag.
Qed.

(** The market branch. *)
Lemma api_query_market self method req w :
  Spec.market_prefix method = true ->
  api_query remote self method req w
  = (reply remote w (Spec.public_request method),
     set_sent (w_sent w ++ [Spec.public_request method]) (after_default req w)).
Proof.
  intros Hm. unfold api_query. rewrite market_test, Hm.
  unfold bind, not_, requests_get, send, reply, after_default, replaced.
  destruct req as [l|]; simpl.
  - destruct (bool_decide _); simpl;
      destruct (remote _ _); reflexivity.
  - destruct (remote _ _); reflexivity.
Qed.

(** Neither branch. *)
Lemma api_query_other self method req w :
  Spec.market_prefix method = false -> Spec.private_member method = false ->
  api_query remote self method req w
  = (Raise (UnboundLocalError "r"), after_default req w).
Proof.
  intros Hm Hp. unfold api_query. rewrite market_test, Hm, private_test, Hp.
  unfold bind, not_, after_default, replaced.
  destruct req as [l|]; simpl; [|reflexivity].
  destruct (bool_decide _); reflexivity.
Qed.

Lemma alter_known {A} (f : A -> A) (l : list A) (i : nat) (x : A) :
  l !! i = Some x -> alter f i l = <[i := f x]> l.
Proof.
  intros H. apply list_eq. intros j.
  destruct (decide (i = j)) as [<-|Hne].
  - rewrite list_lookup_alter_eq, H.
    rewrite list_lookup_insert_eq; [reflexivity|].
    now apply lookup_lt_Some in H.
  - now rewrite list_lookup_alter_ne, list_lookup_insert_ne.
Qed.

Lemma bind_assoc_at {A B C} (m : M A) (f : A -> M B) (g : B -> M C) (w : world) :
  bind m (fun x => bind (f x) g) w = bind (bind m f) g w.
Proof. unfold bind. destruct (m w) as [[a|e] w']; reflexivity. Qed.

Lemma bind_return_at {A B} (m : M A) (k : A -> M B) (w w' : world) (a : A) :
  m w = (Return a, w') -> bind m k w = k a w'.
Proof. unfold bind. now intros ->. Qed.

(** The private branch. *)
Lemma api_query_private self o method req w :
  Spec.market_prefix method = false -> Spec.private_member method = true ->
  w_objs w !! self = Some o ->
  api_query remote self method req w
  = (reply remote w
       (Spec.private_request (api_key o) (api_secret o) method
          (Py.str_int (Py.int_float (w_now w))) (bound_items req w)),
     after_private o method req w).
Proof.
  intros Hm Hp Ho. unfold api_query. rewrite market_test, Hm, private_test, Hp.
  pose proof (bound_req_items req w) as Hl.
  pose proof (after_default_objs req w) as Hobjs.
  pose proof (after_default_now req w) as Hnow.
  pose proof (after_default_sent req w) as Hsent.
  assert (Hpro :
    bind (not_ req)
      (fun empty => match req with
                    | Some l => if empty then new_dict ∅ else ret l
                    | None => new_dict ∅
                    end) w
    = (Return (bound_req req w), after_default req w)).
  { unfold bind, not_, after_default, bound_req, replaced, new_dict, ret, dict_items.
    destruct req as [l|]; simpl; [|reflexivity].
    destruct (bool_decide _); reflexivity. }
  rewrite bind_assoc_at, (bind_return_at _ _ _ _ _ Hpro).
  unfold after_private, Spec.private_request, reply.
  revert Hl Hobjs Hnow Hsent.
  generalize (after_default req w) as w1, (bound_req req w) as l,
             (bound_items req w) as items.
  intros w1 l items Hl Hobjs Hnow Hsent.
  unfold requests_post, bind, time_time, getattr, dict_setitem, send, dict_items, ret.
  do 3 (rewrite ?Hobjs, ?Ho, ?Hnow, ?Hsent;
        cbn [w_objs w_now w_dicts w_sent set_dicts set_sent fst snd api_key api_secret]).
  rewrite (alter_known _ _ _ _ Hl).
  assert (Hlt : (l < length (w_dicts w1))%nat) by (now apply lookup_lt_Some in Hl).
  rewrite (alter_known _ (<[l := _]> (w_dicts w1)) l _ (list_lookup_insert_eq _ _ _ Hlt)).
  rewrite list_insert_insert_eq, list_lookup_insert_eq by exact Hlt.
  cbn [default from_option].
  destruct (remote _ _); reflexivity.
Qed.

End Dispatch_facts.

(* ===================================================================== *)
(** ** Observations: issued requests and form fields *)
(* ===================================================================== *)

Section Observation_facts.

Lemma issued_one (w w1 : world) (rq : http_request) :
  issued w (set_sent (w_sent w ++ [rq]) w1) = [rq].
Proof. unfold issued. simpl. apply drop_app_length. Qed.

Lemma issued_none (w w1 : world) :
  w_sent w1 = w_sent w -> issued w w1 = [].
Proof. unfold issued. intros ->. apply drop_all. Qed.

Lemma filter_key_absent (l : list (string * pyval)) (k : string) :
  k ∉ fst <$> l -> filter (fun kv => fst kv = k) l = [].
Proof.
  induction l as [|[k' v'] l IH]; intros Hk; [reflexivity|].
  rewrite fmap_cons, not_elem_of_cons in Hk. destruct Hk as [Hne Hk].
  simpl in Hne. rewrite filter_cons_False by (simpl; congruence). auto.
Qed.

(** A key bound in a dict gives exactly one field of that name. *)
Lemma assoc_unique (l : list (string * pyval)) (k : string) (v : pyval) :
  NoDup (fst <$> l) -> (k, v) ∈ l ->
  filter (fun kv => fst kv = k) l = [(k, v)].
Proof.
  induction l as [|[k' v'] l IH]; intros Hnd Hin.
  - now apply elem_of_nil in Hin.
  - rewrite fmap_cons in Hnd. apply NoDup_cons in Hnd as [Hk' Hnd].
    apply elem_of_cons in Hin as [Heq|Hin].
    + injection Heq as <- <-.
      rewrite filter_cons_True by reflexivity.
      now rewrite filter_key_absent.
    + rewrite filter_cons_False; [now apply IH|].
      simpl. intros ->. apply Hk'.
      apply list_elem_of_fmap. now exists (k, v).
Qed.

Lemma fields_named_bound (rq : http_request) (d : gmap string pyval)
    (k : string) (v : pyval) :
  rq_data rq = Some d -> d !! k = Some v -> fields_named k rq = [v].
Proof.
  intros Hd Hk. unfold fields_named, form_fields. rewrite Hd.
  rewrite (assoc_unique _ k v); [reflexivity| |].
  - apply NoDup_fst_map_to_list.
  - now apply elem_of_map_to_list.
Qed.

Lemma fields_named_no_data (rq : http_request) (k : string) :
  rq_data rq = None -> fields_named k rq = [].
Proof. intros Hd. unfold fields_named, form_fields. now rewrite Hd. Qed.

Lemma classify_market method :
  Spec.classify method = Spec.Market <-> Spec.market_prefix method = true.
Proof.
  unfold Spec.classify.
  destruct (Spec.market_prefix method), (Spec.private_member method);
    split; congruence.
Qed.

Lemma classify_private method :
  Spec.classify method = Spec.Private <->
  Spec.market_prefix method = false /\ Spec.private_member method = true.
Proof.
  unfold Spec.classify.
  destruct (Spec.market_prefix method), (Spec.private_member method);
    split; intuition congruence.
Qed.

Lemma classify_other method :
  Spec.classify method = Spec.Other <->
  Spec.market_prefix method = false /\ Spec.private_member method = false.
Proof.
  unfold Spec.classify.
  destruct (Spec.market_prefix method), (Spec.private_member method);
    split; intuition congruence.
Qed.

(** Membership of the private set alone decides the private family. *)
Lemma classify_private_member method :
  Spec.classify method = Spec.Private <-> Spec.private_member method = true.
Proof.
  rewrite classify_private. split; [tauto|].
  intros H. split; [now apply private_not_market|exact H].
Qed.

Lemma after_private_issued o method req w :
  issued w (after_private o method req w)
  = [Spec.private_request (api_key o) (api_secret o) method
       (Py.str_int (Py.int_float (w_now w))) (bound_items req w)].
Proof. unfold after_private. apply issued_one. Qed.

Lemma after_private_objs o method req w :
  w_objs (after_private o method req w) = w_objs w.
Proof. unfold after_private. simpl. apply after_default_objs. Qed.

(** In the world after the private branch, the dict [req] is bound to holds
    what was sent. *)
Lemma after_private_bound o method req w :
  w_dicts (after_private o method req w) !! bound_req req w
  = Some (<["signature" :=
             PBytes (Spec.signature (api_secret o)
                       (Spec.canonical_url method (Py.str_int (Py.int_float (w_now w)))))]>
          (<["apikey" := PStr (api_key o)]> (bound_items req w))).
Proof.
  unfold after_private. simpl.
  apply list_lookup_insert_eq.
  pose proof (bound_req_items req w) as H. now apply lookup_lt_Some in H.
Qed.

Lemma after_private_frame o method req w l :
  l <> bound_req req w ->
  w_dicts (after_private o method req w) !! l = w_dicts (after_default req w) !! l.
Proof.
  intros Hne. unfold after_private. simpl.
  now rewrite list_lookup_insert_ne by congruence.
Qed.

End Observation_facts.

(* ===================================================================== *)
(** ** The dispatcher: classification, public path, private path *)
(* ===================================================================== *)

Section Dispatcher.

Variable remote : list http_request -> http_request -> outcome response.

(** C1. For every private call the canonical URL is
    [{base}/private/{method}/?nonce={nonce}], the [signature] field sent is
    base64(HMAC-SHA512(key = secret bytes, message = URL bytes)), and the
    URL that is signed is, byte for byte, the URL the POST is sent to. *)
Theorem C1_private_call_signs_the_url_it_posts_to
    (self : loc) (o : NovaExchange) (method : string) (req : option loc) (w : world) :
  w_objs w !! self = Some o ->
  Spec.classify method = Spec.Private ->
  exists rq : http_request,
    issued w (snd (api_query remote self method req w)) = [rq] /\
    rq_verb rq = POST /\
    rq_url rq = Spec.base +:+ "/private/" +:+ method +:+ "/?nonce="
                  +:+ Py.str_int (Py.int_float (w_now w)) /\
    fields_named "signature" rq =
      [PBytes (Base64.b64encode
                 (HMAC.hmac_sha512 (Py.encode_utf8 (api_secret o))
                                   (Py.encode_utf8 (rq_url rq))))].
Proof.
  intros Ho [Hm Hp]%classify_private.
  rewrite (api_query_private remote self o method req w Hm Hp Ho).
  cbn [snd]. rewrite after_private_issued.
  eexists. split; [reflexivity|]. split; [reflexivity|]. split; [reflexivity|].
  eapply fields_named_bound; [reflexivity|].
  apply lookup_insert_eq.
Qed.

(** C2. A method string is dispatched on the public path exactly when the
    first six characters of its first segment are [market]; otherwise on
    the private path exactly when that segment is in the private set;
    otherwise on neither. The prefix test comes first. *)
Theorem C2_classification_rule
    (self : loc) (o : NovaExchange) (method : string) (req : option loc) (w : world) :
  w_objs w !! self = Some o ->
  let sent := verbs_issued w (snd (api_query remote self method req w)) in
  (sent = [GET] <->
     String.prefix "market" (Spec.first_segment method) = true) /\
  (sent = [POST] <->
     String.prefix "market" (Spec.first_segment method) = false /\
     In (Spec.first_segment method) Spec.private_methods) /\
  (sent = [] <->
     String.prefix "market" (Spec.first_segment method) = false /\
     ~ In (Spec.first_segment method) Spec.private_methods).
Proof.
  intros Ho sent. subst sent.
  fold (Spec.market_prefix method).
  assert (Hmem : In (Spec.first_segment method) Spec.private_methods
                 <-> Spec.private_member method = true).
  { unfold Spec.private_member. rewrite existsb_exists. split.
    - intros Hin. eexists; split; [exact Hin|apply String.eqb_refl].
    - intros (x & Hin & ->%String.eqb_eq). exact Hin. }
  rewrite Hmem. unfold verbs_issued.
  destruct (Spec.market_prefix method) eqn:Hm.
  - rewrite (api_query_market remote self method req w Hm).
    cbn [snd]. rewrite issued_one. cbn.
    repeat split; intros; intuition congruence.
  - destruct (Spec.private_member method) eqn:Hp.
    + rewrite (api_query_private remote self o method req w Hm Hp Ho).
      cbn [snd]. rewrite after_private_issued. cbn.
      repeat split; intros; intuition congruence.
    + rewrite (api_query_other remote self method req w Hm Hp).
      cbn [snd]. rewrite issued_none by apply after_default_sent. cbn.
      repeat split; intros; intuition congruence.
Qed.


(** C4. For a method whose first segment starts with [market], one GET is
    issued, to [{base}/{method}/] with the slash appended and a 60-second
    timeout; it carries no form body and no header, hence neither
    [apikey] nor [signature]; and every dict of the store, the caller's
    mapping among them, is as it was. *)
Theorem C4_market_get_is_unauthenticated
    (self : loc) (method : string) (req : option loc) (w : world) :
  String.prefix "market" (Spec.first_segment method) = true ->
  let w' := snd (api_query remote self method req w) in
  issued w w' =
    [mkRequest GET (Spec.base +:+ "/" +:+ method +:+ "/") None [] (Some 60)] /\
  (forall rq, In rq (issued w w') ->
     fields_named "apikey" rq = [] /\ fields_named "signature" rq = [] /\
     form_fields rq = [] /\ rq_headers rq = []) /\
  (forall l d, w_dicts w !! l = Some d -> w_dicts w' !! l = Some d).
Proof.
  intros Hm w'. subst w'.
  rewrite (api_query_market remote self method req w Hm).
  cbn [snd]. rewrite issued_one.
  split; [reflexivity|]. split.
  - intros rq [<-|[]]. repeat split.
  - intros l d Hl. cbn. now apply after_default_dicts.
Qed.

(** C5. For a method whose first segment neither starts with [market] nor
    is in the private set, no branch runs: no request is issued and no
    value is returned (reading the unbound local [r] raises). *)
Theorem C5_unclassified_method_sends_nothing
    (self : loc) (method : string) (req : option loc) (w : world) :
  String.prefix "market" (Spec.first_segment method) = false ->
  ~ In (Spec.first_segment method) Spec.private_methods ->
  let result := api_query remote self method req w in
  issued w (snd result) = [] /\
  fst result = Raise (UnboundLocalError "r") /\
  (forall body : string, fst result <> Return body).
Proof.
  intros Hm Hnp result. subst result.
  assert (Hp : Spec.private_member method = false).
  { destruct (Spec.private_member method) eqn:E; [|reflexivity].
    exfalso. apply Hnp. unfold Spec.private_member in E.
    apply existsb_exists in E as (x & Hin & ->%String.eqb_eq). exact Hin. }
  rewrite (api_query_other remote self method req w Hm Hp). cbn [fst snd].
  split; [apply issued_none, after_default_sent|].
  split; [reflexivity|discriminate].
Qed.

End Dispatcher.

(** *** C1 to C5 at concrete inputs *)

Lemma C1_witness :
  exists rq : http_request,
    issued Sample.world0
      (snd (api_query Sample.remote 0%nat "getbalance/BTC" (Some 0%nat) Sample.world0))
    = [rq] /\
    rq_verb rq = POST /\
    rq_url rq = Spec.base +:+ "/private/" +:+ "getbalance/BTC" +:+ "/?nonce="
                  +:+ Py.str_int (Py.int_float (w_now Sample.world0)) /\
    fields_named "signature" rq =
      [PBytes (Base64.b64encode
                 (HMAC.hmac_sha512 (Py.encode_utf8 (api_secret Sample.client))
                                   (Py.encode_utf8 (rq_url rq))))].
Proof.
  apply (C1_private_call_signs_the_url_it_posts_to
           Sample.remote 0%nat Sample.client "getbalance/BTC" (Some 0%nat) Sample.world0).
  - reflexivity.
  - vm_compute. reflexivity.
Defined.

Lemma C2_witness :
  let sent := verbs_issued Sample.world0
                (snd (api_query Sample.remote 0%nat "markets" None Sample.world0)) in
  (sent = [GET] <->
     String.prefix "market" (Spec.first_segment "markets") = true) /\
  (sent = [POST] <->
     String.prefix "market" (Spec.first_segment "markets") = false /\
     In (Spec.first_segment "markets") Spec.private_methods) /\
  (sent = [] <->
     String.prefix "market" (Spec.first_segment "markets") = false /\
     ~ In (Spec.first_segment "markets") Spec.private_methods).
Proof.
  apply (C2_classification_rule Sample.remote 0%nat Sample.client "markets" None Sample.world0).
  reflexivity.
Defined.


Lemma C4_witness :
  let w' := snd (api_query Sample.remote 0%nat "market/info/LTC_MEOW" (Some 0%nat)
                   Sample.world0) in
  issued Sample.world0 w' =
    [mkRequest GET (Spec.base +:+ "/" +:+ "market/info/LTC_MEOW" +:+ "/") None []
       (Some 60)] /\
  (forall rq, In rq (issued Sample.world0 w') ->
     fields_named "apikey" rq = [] /\ fields_named "signature" rq = [] /\
     form_fields rq = [] /\ rq_headers rq = []) /\
  (forall l d, w_dicts Sample.world0 !! l = Some d -> w_dicts w' !! l = Some d).
Proof.
  apply (C4_market_get_is_unauthenticated
           Sample.remote 0%nat "market/info/LTC_MEOW" (Some 0%nat) Sample.world0).
  reflexivity.
Defined.

Lemma C5_witness :
  let result := api_query Sample.remote 0%nat "ticker/BTC_LTC" None Sample.world0 in
  issued Sample.world0 (snd result) = [] /\
  fst result = Raise (UnboundLocalError "r") /\
  (forall body : string, fst result <> Return body).
Proof.
  apply (C5_unclassified_method_sends_nothing
           Sample.remote 0%nat "ticker/BTC_LTC" None Sample.world0).
  - reflexivity.
  - vm_compute. intuition discriminate.
Defined.

(* ===================================================================== *)
(** ** Signatures and nonces *)
(* ===================================================================== *)

(** C6. The signature sent is base64(HMAC-SHA512(secret, url)); it depends on
    nothing but the secret and the canonical URL: two private calls, on any
    two clients, worlds, transports and parameter mappings, that agree on the
    API secret and on the URL send the same signature, byte for byte. *)
Theorem C6_signature_determined_by_secret_and_url
    (remote1 remote2 : list http_request -> http_request -> outcome response)
    (self1 self2 : loc) (o1 o2 : NovaExchange) (method1 method2 : string)
    (req1 req2 : option loc) (w1 w2 : world) (rq1 rq2 : http_request) :
  w_objs w1 !! self1 = Some o1 ->
  w_objs w2 !! self2 = Some o2 ->
  Spec.classify method1 = Spec.Private ->
  Spec.classify method2 = Spec.Private ->
  issued w1 (snd (api_query remote1 self1 method1 req1 w1)) = [rq1] ->
  issued w2 (snd (api_query remote2 self2 method2 req2 w2)) = [rq2] ->
  api_secret o1 = api_secret o2 ->
  rq_url rq1 = rq_url rq2 ->
  fields_named "signature" rq1 =
    [PBytes (Base64.b64encode
               (HMAC.hmac_sha512 (Py.encode_utf8 (api_secret o1))
                                 (Py.encode_utf8 (rq_url rq1))))] /\
  fields_named "signature" rq2 = fields_named "signature" rq1.
Proof.
  intros Ho1 Ho2 [Hm1 Hp1]%classify_private [Hm2 Hp2]%classify_private.
  rewrite (api_query_private remote1 self1 o1 method1 req1 w1 Hm1 Hp1 Ho1).
  rewrite (api_query_private remote2 self2 o2 method2 req2 w2 Hm2 Hp2 Ho2).
  cbn [snd]. rewrite !after_private_issued.
  intros [= <-] [= <-] Hsecret Hurl.
  assert (Hsig : forall o method nonce items,
    fields_named "signature" (Spec.private_request (api_key o) (api_secret o) method nonce items)
    = [PBytes (Base64.b64encode
                 (HMAC.hmac_sha512 (Py.encode_utf8 (api_secret o))
                    (Py.encode_utf8
                       (rq_url (Spec.private_request (api_key o) (api_secret o)
                                  method nonce items)))))]).
  { intros. eapply fields_named_bound; [reflexivity|]. apply lookup_insert_eq. }
  split; [apply Hsig|].
  rewrite !Hsig. now rewrite Hurl, Hsecret.
Qed.

Lemma C6_witness :
  let rq1 := Spec.private_request "KEY" "SECRET" "cancelorder/258" "1700000000" ∅ in
  let rq2 := Spec.private_request "KEY" "SECRET" "cancelorder/258" "1700000000"
               Sample.params in
  fields_named "signature" rq1 =
    [PBytes (Base64.b64encode
               (HMAC.hmac_sha512 (Py.encode_utf8 (api_secret Sample.client))
                                 (Py.encode_utf8 (rq_url rq1))))] /\
  fields_named "signature" rq2 = fields_named "signature" rq1.
Proof.
  intros rq1 rq2.
  apply (C6_signature_determined_by_secret_and_url
           Sample.remote Sample.unreachable 0%nat 0%nat Sample.client Sample.client
           "cancelorder/258" "cancelorder/258" None (Some 0%nat)
           Sample.world0 (set_now (1700000000 # 1) Sample.world0) rq1 rq2).
  - reflexivity.
  - reflexivity.
  - vm_compute. reflexivity.
  - vm_compute. reflexivity.
  - vm_compute. reflexivity.
  - vm_compute. reflexivity.
  - reflexivity.
  - reflexivity.
Defined.

Section Nonces.

Variable remote : list http_request -> http_request -> outcome response.

Lemma set_now_objs t w : w_objs (set_now t w) = w_objs w.
Proof. reflexivity. Qed.

(** X20. Two private calls with the same method and parameters, the first
    at or after the epoch and the second at least a second later, carry
    different nonces and are sent to different URLs; each signature is the
    base64 HMAC-SHA512 tag of its own URL, so the two signatures differ
    whenever the two tags do. *)
Theorem X20_a_second_later_the_nonce_is_new
    (self : loc) (o : NovaExchange) (method : string) (req : option loc)
    (w : world) (t1 t2 : Q) :
  w_objs w !! self = Some o ->
  Spec.classify method = Spec.Private ->
  (0 <= t1)%Q ->
  (t1 + 1 <= t2)%Q ->
  let w1 := snd (api_query remote self method req (set_now t1 w)) in
  let w2 := snd (api_query remote self method req (set_now t2 w1)) in
  let nonce1 := Py.str_int (Py.int_float t1) in
  let nonce2 := Py.str_int (Py.int_float t2) in
  let tag1 := HMAC.hmac_sha512 (Py.encode_utf8 (api_secret o))
                (Py.encode_utf8 (Spec.canonical_url method nonce1)) in
  let tag2 := HMAC.hmac_sha512 (Py.encode_utf8 (api_secret o))
                (Py.encode_utf8 (Spec.canonical_url method nonce2)) in
  exists rq1 rq2 : http_request,
    issued w w1 = [rq1] /\ issued w1 w2 = [rq2] /\
    rq_url rq1 = Spec.canonical_url method nonce1 /\
    rq_url rq2 = Spec.canonical_url method nonce2 /\
    nonce1 <> nonce2 /\
    rq_url rq1 <> rq_url rq2 /\
    fields_named "signature" rq1 = [PBytes (Base64.b64encode tag1)] /\
    fields_named "signature" rq2 = [PBytes (Base64.b64encode tag2)] /\
    (tag1 <> tag2 -> fields_named "signature" rq1 <> fields_named "signature" rq2).
Proof.
  intros Ho [Hm Hp]%classify_private H0 H1. cbv zeta.
  rewrite (api_query_private remote self o method req (set_now t1 w) Hm Hp Ho).
  cbn [snd].
  set (w1 := after_private o method req (set_now t1 w)).
  assert (Ho1 : w_objs (set_now t2 w1) !! self = Some o).
  { subst w1. now rewrite set_now_objs, after_private_objs. }
  rewrite (api_query_private remote self o method req (set_now t2 w1) Hm Hp Ho1).
  cbn [snd].
  pose proof (after_private_issued o method req (set_now t1 w)) as I1.
  pose proof (after_private_issued o method req (set_now t2 w1)) as I2.
  fold w1 in I1. unfold issued in *. cbn [w_sent set_now w_now] in I1, I2.
  pose proof (nonce_next_second t1 t2 H0 H1) as Hnonce.
  eexists. eexists.
  split; [exact I1|]. split; [exact I2|].
  split; [reflexivity|]. split; [reflexivity|].
  split; [exact Hnonce|].
  split; [intros E; apply Hnonce; exact (canonical_url_inj _ _ _ E)|].
  assert (Hsig : forall nonce items,
    fields_named "signature"
      (Spec.private_request (api_key o) (api_secret o) method nonce items)
    = [PBytes (Spec.signature (api_secret o) (Spec.canonical_url method nonce))]).
  { intros. eapply fields_named_bound; [reflexivity|]. apply lookup_insert_eq. }
  split; [apply Hsig|]. split; [apply Hsig|].
  intros Htag E. rewrite !Hsig in E. injection E as E.
  apply Htag. exact (b64encode_inj _ _ E).
Qed.

End Nonces.

Lemma X20_witness :
  exists rq1 rq2 : http_request,
    let w := Sample.world0 in
    let t1 := (6800000001 # 4)%Q in
    let t2 := (6800000005 # 4)%Q in
    let w1 := snd (api_query Sample.remote 0%nat "trade/LTC_MEOW" (Some 0%nat)
                     (set_now t1 w)) in
    let w2 := snd (api_query Sample.remote 0%nat "trade/LTC_MEOW" (Some 0%nat)
                     (set_now t2 w1)) in
    issued w w1 = [rq1] /\ issued w1 w2 = [rq2] /\
    rq_url rq1 = Spec.canonical_url "trade/LTC_MEOW" "1700000000" /\
    rq_url rq2 = Spec.canonical_url "trade/LTC_MEOW" "1700000001" /\
    fields_named "signature" rq1 <> fields_named "signature" rq2.
Proof.
  destruct (X20_a_second_later_the_nonce_is_new
              Sample.remote 0%nat Sample.client "trade/LTC_MEOW" (Some 0%nat)
              Sample.world0 (6800000001 # 4) (6800000005 # 4))
    as (rq1 & rq2 & I1 & I2 & U1 & U2 & _ & _ & _ & _ & Hsig).
  - reflexivity.
  - vm_compute. reflexivity.
  - unfold Qle. simpl. lia.
  - unfold Qle, Qplus. simpl. lia.
  - exists rq1, rq2. cbv zeta.
    split; [exact I1|]. split; [exact I2|].
    split; [exact U1|]. split; [exact U2|].
    apply Hsig. vm_compute. discriminate.
Defined.

(* ===================================================================== *)
(** ** The validating wrappers *)
(* ===================================================================== *)

Section Wrappers.

Variable remote : list http_request -> http_request -> outcome response.
Variable rt : runtime.

(** What [trade] does once its three conversions have succeeded. *)
Lemma trade_converted self market tradetype tradeamount tradeprice tradebase b a p w :
  py_int rt tradebase = Return b ->
  py_float rt tradeamount = Return a ->
  py_float rt tradeprice = Return p ->
  trade remote rt self market tradetype tradeamount tradeprice tradebase w
  = (if (String.eqb (py_str rt tradetype) "BUY"
         || String.eqb (py_str rt tradetype) "SELL")%bool then
       if ((b =? 0) || (b =? 1))%bool then
         bind (new_dict (<["tradetype" := PStr (py_str rt tradetype)]>
                         (<["tradebase" := PInt b]>
                          (<["tradeprice" := val_of_float p]>
                           (<["tradeamount" := val_of_float a]> ∅)))))
              (fun req => query_text remote self ("trade/" +:+ market) (Some req))
       else
         ret (RTuple ["tradebase"; Py.str_int b;
                      "is invalid (Set as 0 for market currency or 1 for basecurrency as tradeamount)"]%string)
     else
       ret (RTuple ["trade type"; py_str rt tradetype;
                    "is invalid. (Set as  BUY or SELL)"]%string)) w.
Proof.
  intros Hb Ha Hp. unfold trade. cbv zeta.
  unfold bind at 1, of_outcome at 1. rewrite Hb. cbv beta iota.
  unfold bind at 1, of_outcome at 1. rewrite Ha. cbv beta iota.
  unfold bind at 1, of_outcome at 1. rewrite Hp. cbv beta iota.
  reflexivity.
Qed.

(** When a conversion raises, [trade] raises with it, before any
    validation, and the world is as it was. *)
Lemma trade_conversion_raises self market tradetype tradeamount tradeprice tradebase e w :
  py_int rt tradebase = Raise e \/
  (exists b, py_int rt tradebase = Return b /\
     (py_float rt tradeamount = Raise e \/
      exists a, py_float rt tradeamount = Return a /\ py_float rt tradeprice = Raise e)) ->
  trade remote rt self market tradetype tradeamount tradeprice tradebase w = (Raise e, w).
Proof.
  intros H. unfold trade. cbv zeta.
  destruct H as [Hb|(b & Hb & [Ha|(a & Ha & Hp)])].
  - unfold bind at 1, of_outcome at 1. now rewrite Hb.
  - unfold bind at 1, of_outcome at 1. rewrite Hb. cbv beta iota.
    unfold bind at 1, of_outcome at 1. now rewrite Ha.
  - unfold bind at 1, of_outcome at 1. rewrite Hb. cbv beta iota.
    unfold bind at 1, of_outcome at 1. rewrite Ha. cbv beta iota.
    unfold bind at 1, of_outcome at 1. now rewrite Hp.
Qed.


End Wrappers.



(* ===================================================================== *)
(** ** Credentials *)
(* ===================================================================== *)

Create HintDb keeps.

Section Credentials.

Variable remote : list http_request -> http_request -> outcome response.
Variable rt : runtime.

Lemma keeps_ret {A} (a : A) : keeps_objs (ret a).
Proof. intros w. reflexivity. Qed.

Lemma keeps_raise {A} (e : exn) : keeps_objs (@raise A e).
Proof. intros w. reflexivity. Qed.

Lemma keeps_bind {A B} (m : M A) (k : A -> M B) :
  keeps_objs m -> (forall a, keeps_objs (k a)) -> keeps_objs (bind m k).
Proof.
  intros Hm Hk w. unfold bind. specialize (Hm w).
  destruct (m w) as [[a|e] w']; simpl in *.
  - now rewrite Hk.
  - exact Hm.
Qed.

Lemma keeps_of_outcome {A} (o : outcome A) : keeps_objs (of_outcome o).
Proof. intros w. reflexivity. Qed.

Lemma keeps_time_time : keeps_objs time_time.
Proof. intros w. reflexivity. Qed.

Lemma keeps_new_dict d : keeps_objs (new_dict d).
Proof. intros w. reflexivity. Qed.

Lemma keeps_dict_items l : keeps_objs (dict_items l).
Proof. intros w. reflexivity. Qed.

Lemma keeps_dict_setitem l k v : keeps_objs (dict_setitem l k v).
Proof. intros w. reflexivity. Qed.

Lemma keeps_getattr {A} self name (field : NovaExchange -> A) :
  keeps_objs (getattr self name field).
Proof. intros w. unfold getattr. now destruct (w_objs w !! self). Qed.

Lemma keeps_send rq : keeps_objs (send remote rq).
Proof. intros w. reflexivity. Qed.

Hint Resolve keeps_ret keeps_raise keeps_of_outcome keeps_time_time keeps_new_dict keeps_dict_items
  keeps_dict_setitem keeps_getattr keeps_send : keeps.

Ltac keeps_step :=
  match goal with
  | |- keeps_objs (bind _ _) => apply keeps_bind; [|intros ?]
  | |- keeps_objs (if ?b then _ else _) => destruct b
  | |- keeps_objs (match ?x with _ => _ end) => destruct x
  | |- keeps_objs _ => solve [auto with keeps]
  end.

Lemma keeps_not_ req : keeps_objs (not_ req).
Proof. unfold not_. repeat keeps_step. Qed.

Lemma keeps_requests_get url t : keeps_objs (requests_get remote url t).
Proof. unfold requests_get. repeat keeps_step. Qed.

Lemma keeps_requests_post url d h t : keeps_objs (requests_post remote url d h t).
Proof. unfold requests_post. repeat keeps_step. Qed.

Hint Resolve keeps_not_ keeps_requests_get keeps_requests_post : keeps.

(** [api_query] never assigns to an attribute of an instance. *)
Lemma keeps_api_query self method req : keeps_objs (api_query remote self method req).
Proof. unfold api_query. repeat keeps_step. Qed.

Hint Resolve keeps_api_query : keeps.

Lemma keeps_query_text self method req : keeps_objs (query_text remote self method req).
Proof. unfold query_text. repeat keeps_step. Qed.

Hint Resolve keeps_query_text : keeps.

(** Nor does any method of the class. *)
Lemma keeps_invoke self c : keeps_objs (invoke remote rt self c).
Proof.
  destruct c; simpl;
    unfold markets, market_info, market_order_history, market_open_orders,
      get_balances, get_balance, get_deposits, get_withdrawals,
      get_new_deposit_address, get_deposit_address, my_open_orders,
      my_open_orders_market, cancel_order, withdraw, trade, trade_history,
      get_deposit_history, get_withdrawal_history, wallet_status;
    cbv zeta; repeat keeps_step.
Qed.

(** Constructing an instance adds one at the end of the store. *)
Lemma init_objs k s w :
  __init__ k s w
  = (Return (length (w_objs w)),
     set_objs (w_objs w ++ [mkNovaExchange (default ""%string k) (default ""%string s)]) w).
Proof. unfold __init__. destruct k, s; reflexivity. Qed.

Lemma perform_keeps_instance a w self o :
  w_objs w !! self = Some o -> w_objs (perform remote rt a w) !! self = Some o.
Proof.
  intros H. destruct a as [k s|self' c]; unfold perform.
  - rewrite init_objs. simpl. now apply lookup_app_l_Some.
  - now rewrite keeps_invoke.
Qed.

Lemma run_keeps_instance acts w self o :
  w_objs w !! self = Some o -> w_objs (run remote rt acts w) !! self = Some o.
Proof.
  revert w. induction acts as [|[t a] acts IH]; intros w H; simpl; [exact H|].
  apply IH, perform_keeps_instance. exact H.
Qed.

(** C9. The constructor stores the empty string for a key or secret that is
    [None], the string itself otherwise; whatever is done afterwards, at
    whatever clock readings, with this instance or others, the stored
    key and secret stay what the constructor stored. *)
Theorem C9_credentials_normalised_and_never_modified
    (k s : option string) (w : world) (acts : list (Q * action)) :
  let self := length (w_objs w) in
  let w1 := snd (__init__ k s w) in
  fst (__init__ k s w) = Return self /\
  w_objs w1 !! self
    = Some (mkNovaExchange (match k with Some key => key | None => "" end)
                           (match s with Some secret => secret | None => "" end)) /\
  w_objs (snd (__init__ None None w)) !! self = Some (mkNovaExchange "" "") /\
  w_objs (run remote rt acts w1) !! self = w_objs w1 !! self.
Proof.
  cbv zeta. rewrite !init_objs. cbn [fst snd set_objs w_objs].
  assert (Hnew : forall o : NovaExchange,
            (w_objs w ++ [o]) !! length (w_objs w) = Some o).
  { intros o. rewrite lookup_app_r by lia. now rewrite Nat.sub_diag. }
  split; [reflexivity|].
  split; [rewrite Hnew; now destruct k, s|].
  split; [apply Hnew|].
  rewrite Hnew. apply run_keeps_instance. apply Hnew.
Qed.

End Credentials.

(* ===================================================================== *)
(** ** The caller's mapping *)
(* ===================================================================== *)

Section Caller_mapping.

Variable remote : list http_request -> http_request -> outcome response.

(** A mapping that is not empty is not replaced by a new dict. *)
Lemma nonempty_not_replaced (l : loc) (d : gmap string pyval) (w : world) :
  w_dicts w !! l = Some d -> d <> ∅ ->
  replaced (Some l) w = false /\ bound_req (Some l) w = l /\
  bound_items (Some l) w = d /\ after_default (Some l) w = w.
Proof.
  intros Hl Hd.
  assert (E : replaced (Some l) w = false).
  { unfold replaced. rewrite Hl. simpl. now apply bool_decide_eq_false. }
  unfold bound_req, bound_items, after_default. rewrite E, Hl. auto.
Qed.

(** C10. On a private call with a mapping that is not empty, [api_query]
    writes into the caller's own dict: afterwards that dict holds [apikey]
    and [signature], added or overwritten, and every other entry as before;
    it is this dict that is sent, no dict is created and no other dict is
    touched. *)
Theorem C10_private_call_mutates_callers_mapping
    (self : loc) (o : NovaExchange) (method : string) (l : loc)
    (d : gmap string pyval) (w : world) :
  w_objs w !! self = Some o ->
  Spec.classify method = Spec.Private ->
  w_dicts w !! l = Some d ->
  d <> ∅ ->
  let w' := snd (api_query remote self method (Some l) w) in
  exists (d' : gmap string pyval) (sig : list byte),
    w_dicts w' !! l = Some d' /\
    d' !! "apikey" = Some (PStr (api_key o)) /\
    d' !! "signature" = Some (PBytes sig) /\
    (forall k : string, k <> "apikey"%string -> k <> "signature"%string ->
       d' !! k = d !! k) /\
    (rq_data <$> issued w w') = [Some d'] /\
    length (w_dicts w') = length (w_dicts w) /\
    (forall l' : loc, l' <> l -> w_dicts w' !! l' = w_dicts w !! l').
Proof.
  intros Ho [Hm Hp]%classify_private Hl Hd. cbv zeta.
  rewrite (api_query_private remote self o method (Some l) w Hm Hp Ho).
  cbn [snd].
  destruct (nonempty_not_replaced l d w Hl Hd) as (_ & Eb & Ei & Ew).
  pose proof (after_private_bound o method (Some l) w) as Hb.
  pose proof (after_private_issued o method (Some l) w) as Hi.
  rewrite Eb, Ei in Hb. rewrite Ei in Hi.
  eexists. eexists. split; [exact Hb|].
  split; [rewrite lookup_insert_ne by discriminate; apply lookup_insert_eq|].
  split; [apply lookup_insert_eq|].
  split; [intros k H1 H2; now rewrite !lookup_insert_ne by congruence|].
  split; [rewrite Hi; reflexivity|].
  split.
  - unfold after_private. cbn [w_dicts set_sent set_dicts].
    rewrite length_insert. now rewrite Ew.
  - intros l' Hne. rewrite after_private_frame by (rewrite Eb; exact Hne).
    now rewrite Ew.
Qed.

(** By contrast an empty mapping, like an absent one, is replaced by a new
    dict and stays empty. *)
Lemma empty_mapping_untouched
    (self : loc) (o : NovaExchange) (method : string) (l : loc) (w : world) :
  w_objs w !! self = Some o ->
  Spec.classify method = Spec.Private ->
  w_dicts w !! l = Some ∅ ->
  w_dicts (snd (api_query remote self method (Some l) w)) !! l = Some ∅.
Proof.
  intros Ho [Hm Hp]%classify_private Hl.
  rewrite (api_query_private remote self o method (Some l) w Hm Hp Ho).
  cbn [snd].
  assert (E : replaced (Some l) w = true).
  { unfold replaced. rewrite Hl. simpl. now apply bool_decide_eq_true. }
  assert (Eb : bound_req (Some l) w = length (w_dicts w)).
  { unfold bound_req. now rewrite E. }
  rewrite after_private_frame.
  - apply after_default_dicts. exact Hl.
  - rewrite Eb. apply lookup_lt_Some in Hl. lia.
Qed.

End Caller_mapping.

Lemma C10_witness :
  exists (d' : gmap string pyval) (sig : list byte),
    let w' := snd (api_query Sample.unreachable 0%nat "withdraw/BTC" (Some 0%nat)
                     Sample.world0) in
    w_dicts w' !! 0%nat = Some d' /\
    d' !! "apikey" = Some (PStr "KEY") /\
    d' !! "signature" = Some (PBytes sig) /\
    d' !! "currency" = Some (PStr "BTC") /\
    (rq_data <$> issued Sample.world0 w') = [Some d'] /\
    length (w_dicts w') = 1%nat.
Proof.
  destruct (C10_private_call_mutates_callers_mapping
              Sample.unreachable 0%nat Sample.client "withdraw/BTC" 0%nat
              Sample.params Sample.world0)
    as (d' & sig & Hd' & Hkey & Hsig & Hframe & Hsent & Hlen & _).
  - reflexivity.
  - vm_compute. reflexivity.
  - reflexivity.
  - apply insert_non_empty.
  - exists d', sig. cbv zeta.
    split; [exact Hd'|]. split; [exact Hkey|]. split; [exact Hsig|].
    split; [rewrite Hframe by discriminate; reflexivity|].
    split; [exact Hsent|exact Hlen].
Defined.

(* ===================================================================== *)
(** ** The endpoint wrappers *)
(* ===================================================================== *)

Section Segments.

(** A wrapper's argument, whatever it holds, never reaches the first
    segment: the name before the slash decides the family. *)
Lemma first_segment_name (name rest : string) :
  Spec.first_segment name = name ->
  Spec.first_segment (name +:+ String "/" rest) = name.
Proof.
  induction name as [|c name IH]; intros H; simpl in *; [reflexivity|].
  destruct (Ascii.eqb c "/"); [discriminate|].
  injection H as H. now rewrite IH.
Qed.

Lemma classify_name_arg (name arg : string) :
  Spec.first_segment name = name ->
  Spec.classify (name +:+ String "/" arg) = Spec.classify name.
Proof.
  intros H. unfold Spec.classify, Spec.market_prefix, Spec.private_member.
  now rewrite first_segment_name, H.
Qed.

End Segments.

Section Wrapper_facts.

Variable remote : list http_request -> http_request -> outcome response.

(** The private branch on a reference that is no instance: the read of
    [self.api_key] raises before anything is written or sent. *)
Lemma api_query_private_no_instance self method req w :
  Spec.market_prefix method = false -> Spec.private_member method = true ->
  w_objs w !! self = None ->
  api_query remote self method req w
  = (Raise (AttributeError "api_key"), after_default req w).
Proof.
  intros Hm Hp Ho. unfold api_query. rewrite market_test, Hm, private_test, Hp.
  pose proof (after_default_objs req w) as Hobjs.
  assert (Hpro :
    bind (not_ req)
      (fun empty => match req with
                    | Some l => if empty then new_dict ∅ else ret l
                    | None => new_dict ∅
                    end) w
    = (Return (bound_req req w), after_default req w)).
  { unfold bind, not_, after_default, bound_req, replaced, new_dict, ret, dict_items.
    destruct req as [l|]; simpl; [|reflexivity].
    destruct (bool_decide _); reflexivity. }
  rewrite bind_assoc_at, (bind_return_at _ _ _ _ _ Hpro).
  revert Hobjs. generalize (after_default req w) as w1. intros w1 Hobjs.
  unfold bind, time_time, getattr.
  cbn [w_objs fst snd]. now rewrite Hobjs, Ho.
Qed.

Lemma query_text_eq self method req w :
  query_text remote self method req w
  = (match fst (api_query remote self method req w) with
     | Return s => Return (RText s)
     | Raise e => Raise e
     end, snd (api_query remote self method req w)).
Proof.
  unfold query_text, bind, ret.
  destruct (api_query remote self method req w) as [[s|e] w']; reflexivity.
Qed.

Lemma query_text_market self method req w :
  Spec.market_prefix method = true ->
  query_text remote self method req w
  = (match remote (w_sent w) (Spec.public_request method) with
     | Return r => Return (RText (text r))
     | Raise e => Raise e
     end,
     set_sent (w_sent w ++ [Spec.public_request method]) (after_default req w)).
Proof.
  intros Hm. rewrite query_text_eq, (api_query_market remote self method req w Hm).
  unfold reply. cbn [fst snd]. now destruct (remote _ _).
Qed.

Lemma query_text_private self o method req w :
  Spec.private_member method = true ->
  w_objs w !! self = Some o ->
  query_text remote self method req w
  = (match remote (w_sent w)
             (Spec.private_request (api_key o) (api_secret o) method
                (Py.str_int (Py.int_float (w_now w))) (bound_items req w)) with
     | Return r => Return (RText (text r))
     | Raise e => Raise e
     end,
     after_private o method req w).
Proof.
  intros Hp Ho. pose proof (private_not_market method Hp) as Hm.
  rewrite query_text_eq, (api_query_private remote self o method req w Hm Hp Ho).
  unfold reply. cbn [fst snd]. now destruct (remote _ _).
Qed.

(** X1. The three public wrappers without validation issue one GET each, to
    [markets/], [market/info/{market}/] and [market/orderhistory/{market}/]
    under the base URL, whatever string [market] is; nothing but the URL and
    the 60-second timeout is passed to the transport, and what comes back is
    the body text of the response, or the transport's exception. *)
Theorem X1_public_wrappers_issue_one_plain_get
    (self : loc) (market : string) (w : world) :
  let get (path : string) :=
    mkRequest GET ("https://novaexchange.com/remote/v2/" +:+ path +:+ "/")
      None [] (Some 60) in
  let answer (rq : http_request) :=
    match remote (w_sent w) rq with
    | Return r => Return (RText (text r))
    | Raise e => Raise e
    end in
  (issued w (snd (markets remote self w)) = [get "markets"%string] /\
   fst (markets remote self w) = answer (get "markets"%string)) /\
  (issued w (snd (market_info remote self market w))
     = [get ("market/info/" +:+ market)] /\
   fst (market_info remote self market w) = answer (get ("market/info/" +:+ market))) /\
  (issued w (snd (market_order_history remote self market w))
     = [get ("market/orderhistory/" +:+ market)] /\
   fst (market_order_history remote self market w)
     = answer (get ("market/orderhistory/" +:+ market))).
Proof.
  cbv zeta. unfold markets, market_info, market_order_history.
  rewrite !query_text_market by reflexivity.
  cbn [fst snd]. rewrite !issued_one.
  repeat split.
Qed.

(** X2. [market_open_orders] issues a request exactly when [ordertype] is
    [BUY], [SELL] or [BOTH]: then one GET to
    [market/openorders/{market}/{ordertype}/] under the base URL, and
    otherwise none. *)
Theorem X2_market_open_orders_dispatches_iff_valid
    (self : loc) (market ordertype : string) (w : world) :
  let sent := issued w (snd (market_open_orders remote self market ordertype w)) in
  (sent = [mkRequest GET
             ("https://novaexchange.com/remote/v2/"
                +:+ ("market/openorders/" +:+ market +:+ "/" +:+ ordertype) +:+ "/")
             None [] (Some 60)]
   <-> In ordertype ["BUY"; "SELL"; "BOTH"]%string) /\
  (sent = [] <-> ~ In ordertype ["BUY"; "SELL"; "BOTH"]%string).
Proof.
  cbv zeta. unfold market_open_orders.
  destruct (bool_decide (ordertype ∈ ["BUY"; "SELL"; "BOTH"]%string)) eqn:E.
  - apply bool_decide_eq_true in E. rewrite list_elem_of_In in E.
    rewrite query_text_market by reflexivity.
    cbn [snd]. rewrite issued_one.
    split; split; intros; try tauto; try discriminate; reflexivity.
  - apply bool_decide_eq_false in E. rewrite list_elem_of_In in E.
    cbn [ret snd]. rewrite issued_none by reflexivity.
    split; split; intros; try tauto; try discriminate; reflexivity.
Qed.

(** X3. The seven private wrappers without argument each issue one POST, to
    the canonical URL of their own method name at the current whole second;
    the form holds [apikey] and [signature] and nothing else. *)
Theorem X3_plain_private_wrappers_post_key_and_signature
    (self : loc) (o : NovaExchange) (w : world) :
  w_objs w !! self = Some o ->
  let post (method : string) :=
    [Spec.private_request (api_key o) (api_secret o) method
       (Py.str_int (Py.int_float (w_now w))) ∅] in
  issued w (snd (get_balances remote self w)) = post "getbalances"%string /\
  issued w (snd (get_deposits remote self w)) = post "getdeposits"%string /\
  issued w (snd (get_withdrawals remote self w)) = post "getwithdrawals"%string /\
  issued w (snd (my_open_orders remote self w)) = post "myopenorders"%string /\
  issued w (snd (trade_history remote self w)) = post "tradehistory"%string /\
  issued w (snd (get_deposit_history remote self w)) = post "getdeposithistory"%string /\
  issued w (snd (get_withdrawal_history remote self w))
    = post "getwithdrawalhistory"%string.
Proof.
  intros Ho. cbv zeta.
  unfold get_balances, get_deposits, get_withdrawals, my_open_orders, trade_history,
    get_deposit_history, get_withdrawal_history.
  rewrite !(fun m H => query_text_private self o m None w H Ho) by reflexivity.
  cbn [snd]. rewrite !after_private_issued.
  repeat (split; [reflexivity|]). reflexivity.
Qed.

(** X4. The private wrappers with one argument append it to their method
    name after a slash; whatever the argument holds (nothing, slashes, the
    word [market]), the call stays on the private path: one POST to the
    canonical URL of [{name}/{argument}], with [apikey] and [signature] as
    the only fields. [cancel_order] writes its integer in decimal;
    [wallet_status] without currency sends the bare name. *)
Theorem X4_argument_wrappers_stay_private
    (self : loc) (o : NovaExchange) (arg : string) (order_id : Z) (w : world) :
  w_objs w !! self = Some o ->
  let post (method : string) :=
    [Spec.private_request (api_key o) (api_secret o) method
       (Py.str_int (Py.int_float (w_now w))) ∅] in
  issued w (snd (get_balance remote self arg w)) = post ("getbalance/" +:+ arg) /\
  issued w (snd (get_new_deposit_address remote self arg w))
    = post ("getnewdepositaddress/" +:+ arg) /\
  issued w (snd (get_deposit_address remote self arg w))
    = post ("getdepositaddress/" +:+ arg) /\
  issued w (snd (my_open_orders_market remote self arg w))
    = post ("myopenorders_market/" +:+ arg) /\
  issued w (snd (cancel_order remote self order_id w))
    = post ("cancelorder/" +:+ Py.str_int order_id) /\
  issued w (snd (wallet_status remote self (Some arg) w))
    = post ("walletstatus/" +:+ arg) /\
  issued w (snd (wallet_status remote self None w)) = post "walletstatus"%string.
Proof.
  intros Ho. cbv zeta.
  unfold get_balance, get_new_deposit_address, get_deposit_address,
    my_open_orders_market, cancel_order, wallet_status.
  rewrite !(fun m H => query_text_private self o m None w H Ho) by reflexivity.
  cbn [snd]. rewrite !after_private_issued.
  repeat (split; [reflexivity|]). reflexivity.
Qed.

(** A wrapper that builds its own parameter dict: the dict is new, it is
    not empty, so [api_query] writes into it and sends it. *)
Lemma query_text_own_dict self o method (d0 : gmap string pyval) w :
  Spec.private_member method = true ->
  w_objs w !! self = Some o ->
  d0 <> ∅ ->
  bind (new_dict d0) (fun req => query_text remote self method (Some req)) w
  = let rq := Spec.private_request (api_key o) (api_secret o) method
                (Py.str_int (Py.int_float (w_now w))) d0 in
    (match remote (w_sent w) rq with
     | Return r => Return (RText (text r))
     | Raise e => Raise e
     end,
     set_sent (w_sent w ++ [rq])
       (set_dicts (w_dicts w ++ [default ∅ (rq_data rq)]) w)).
Proof.
  intros Hp Ho Hd. unfold bind at 1. unfold new_dict. cbv beta iota.
  assert (Hl : w_dicts (set_dicts (w_dicts w ++ [d0]) w) !! length (w_dicts w) = Some d0).
  { simpl. rewrite lookup_app_r by lia. now rewrite Nat.sub_diag. }
  destruct (nonempty_not_replaced _ _ _ Hl Hd) as (_ & Eb & Ei & Ew).
  assert (Ho0 : w_objs (set_dicts (w_dicts w ++ [d0]) w) !! self = Some o) by exact Ho.
  rewrite (query_text_private self o method _ _ Hp Ho0).
  unfold after_private. rewrite Eb, Ei, Ew. cbv zeta.
  cbn [w_sent w_now w_dicts set_dicts set_sent].
  rewrite insert_app_r_alt by lia. rewrite Nat.sub_diag. reflexivity.
Qed.

(** X5. [withdraw] builds a new dict with [currency], [amount] and
    [address], and posts it to the canonical URL of [withdraw/{currency}]
    with [apikey] and [signature] added: five form fields in all. No dict
    that was in the store before is changed. *)
Theorem X5_withdraw_posts_five_fields
    (self : loc) (o : NovaExchange) (currency : string) (amount : Q)
    (address : string) (w : world) :
  w_objs w !! self = Some o ->
  let w' := snd (withdraw remote self currency amount address w) in
  let url := Spec.canonical_url ("withdraw/" +:+ currency)
               (Py.str_int (Py.int_float (w_now w))) in
  exists (rq : http_request) (d : gmap string pyval),
    issued w w' = [rq] /\
    rq_verb rq = POST /\ rq_url rq = url /\ rq_data rq = Some d /\
    dom d = ({["currency"; "amount"; "address"; "apikey"; "signature"]} : gset string) /\
    length (form_fields rq) = 5%nat /\
    d !! "currency" = Some (PStr currency) /\
    d !! "amount" = Some (PFloat amount) /\
    d !! "address" = Some (PStr address) /\
    d !! "apikey" = Some (PStr (api_key o)) /\
    d !! "signature" = Some (PBytes (Spec.signature (api_secret o) url)) /\
    (forall l d0, w_dicts w !! l = Some d0 -> w_dicts w' !! l = Some d0).
Proof.
  intros Ho. cbv zeta. unfold withdraw.
  rewrite (query_text_own_dict self o) by
    (try reflexivity; try exact Ho; apply insert_non_empty).
  cbv zeta. cbn [snd]. rewrite issued_one.
  eexists. eexists. split; [reflexivity|].
  split; [reflexivity|]. split; [reflexivity|]. split; [reflexivity|].
  assert (Hdom : forall d : gmap string pyval,
    d = <["signature" := PBytes (Spec.signature (api_secret o)
            (Spec.canonical_url ("withdraw/" +:+ currency)
               (Py.str_int (Py.int_float (w_now w)))))]>
        (<["apikey" := PStr (api_key o)]>
         (<["currency" := PStr currency]>
          (<["amount" := PFloat amount]> (<["address" := PStr address]> ∅)))) ->
    dom d = ({["currency"; "amount"; "address"; "apikey"; "signature"]} : gset string)).
  { intros d ->. rewrite !dom_insert_L, dom_empty_L. set_solver. }
  split; [now apply Hdom|].
  split.
  { unfold form_fields. cbn [rq_data Spec.private_request].
    rewrite length_map_to_list, <- size_dom, (Hdom _ eq_refl).
    reflexivity. }
  repeat (split; [now simplify_map_eq|]).
  intros l d0 Hl. cbn [w_dicts set_sent set_dicts]. now apply lookup_app_l_Some.
Qed.

(** X6. [trade] converts its arguments with [str], [int] and [float] before
    it looks at them. Once the conversions have succeeded it issues a
    request exactly when the converted [tradetype] is [BUY] or [SELL] and
    the converted [tradebase] is 0 or 1: then one POST to the canonical URL
    of [trade/{market}] whose form holds the four converted values with
    [apikey] and [signature]; otherwise nothing is sent. *)
Theorem X6_trade_dispatches_iff_valid
    (rt : runtime) (self : loc) (o : NovaExchange) (market : string)
    (tradetype tradeamount tradeprice tradebase : pyobj)
    (b : Z) (a p : pyfloat) (w : world) :
  w_objs w !! self = Some o ->
  py_int rt tradebase = Return b ->
  py_float rt tradeamount = Return a ->
  py_float rt tradeprice = Return p ->
  let sent := issued w (snd (trade remote rt self market tradetype tradeamount tradeprice
                               tradebase w)) in
  let valid := In (py_str rt tradetype) ["BUY"; "SELL"]%string /\ In b [0; 1] in
  (sent = [Spec.private_request (api_key o) (api_secret o) ("trade/" +:+ market)
             (Py.str_int (Py.int_float (w_now w)))
             (<["tradetype" := PStr (py_str rt tradetype)]>
              (<["tradebase" := PInt b]>
               (<["tradeprice" := val_of_float p]>
                (<["tradeamount" := val_of_float a]> ∅))))]
   <-> valid) /\
  (sent = [] <-> ~ valid).
Proof.
  intros Ho Hb Ha Hp. cbv zeta.
  assert (Htype : In (py_str rt tradetype) ["BUY"; "SELL"]%string <->
                  (String.eqb (py_str rt tradetype) "BUY"
                   || String.eqb (py_str rt tradetype) "SELL")%bool = true).
  { rewrite orb_true_iff, !String.eqb_eq. simpl. intuition congruence. }
  assert (Hbase : In b [0; 1] <-> ((b =? 0) || (b =? 1))%bool = true).
  { rewrite orb_true_iff, !Z.eqb_eq. simpl. intuition congruence. }
  rewrite Htype, Hbase.
  rewrite (trade_converted remote rt self market tradetype tradeamount tradeprice
             tradebase b a p w Hb Ha Hp).
  destruct (String.eqb (py_str rt tradetype) "BUY"
            || String.eqb (py_str rt tradetype) "SELL")%bool.
  - destruct ((b =? 0) || (b =? 1))%bool.
    + rewrite (query_text_own_dict self o) by
        (try reflexivity; try exact Ho; apply insert_non_empty).
      cbv zeta. cbn [snd]. rewrite issued_one.
      split; split; intros; try tauto; try discriminate; try reflexivity.
    + cbn [ret snd]. rewrite issued_none by reflexivity.
      split; split; intros; try discriminate; try reflexivity; intuition discriminate.
  - cbn [ret snd]. rewrite issued_none by reflexivity.
    split; split; intros; try discriminate; try reflexivity; intuition discriminate.
Qed.

(** X21. The conversions of [trade] run in the order [int(tradebase)],
    [float(tradeamount)], [float(tradeprice)], before any validation: when
    one of them raises, [trade] raises the same exception, whatever
    [tradetype] is; nothing is sent and the world is as it was. *)
Theorem X21_trade_conversion_errors_reach_the_caller
    (rt : runtime) (self : loc) (market : string)
    (tradetype tradeamount tradeprice tradebase : pyobj) (e : exn) (w : world) :
  py_int rt tradebase = Raise e \/
  (exists b, py_int rt tradebase = Return b /\
     (py_float rt tradeamount = Raise e \/
      exists a, py_float rt tradeamount = Return a /\ py_float rt tradeprice = Raise e)) ->
  let result := trade remote rt self market tradetype tradeamount tradeprice tradebase w in
  fst result = Raise e /\ snd result = w /\ issued w (snd result) = [].
Proof.
  intros H. cbv zeta.
  rewrite (trade_conversion_raises remote rt self market tradetype tradeamount
             tradeprice tradebase e w H).
  cbn [fst snd]. split; [reflexivity|]. split; [reflexivity|].
  apply issued_none. reflexivity.
Qed.

(** X7. On the public and on the private path [api_query] hands back exactly
    what the transport gives: the body text of the response, or the
    exception raised; the request counts as issued in both cases. *)
Theorem X7_api_query_returns_what_the_transport_gives
    (self : loc) (o : NovaExchange) (method : string) (req : option loc) (w : world) :
  w_objs w !! self = Some o ->
  Spec.classify method <> Spec.Other ->
  exists rq : http_request,
    issued w (snd (api_query remote self method req w)) = [rq] /\
    (forall r : response,
       remote (w_sent w) rq = Return r ->
       fst (api_query remote self method req w) = Return (text r)) /\
    (forall e : exn,
       remote (w_sent w) rq = Raise e ->
       fst (api_query remote self method req w) = Raise e).
Proof.
  intros Ho Hc.
  destruct (Spec.classify method) eqn:E; [| |congruence].
  - apply classify_market in E.
    rewrite (api_query_market remote self method req w E).
    cbn [fst snd]. rewrite issued_one. eexists. split; [reflexivity|].
    unfold reply. split; intros ? ->; reflexivity.
  - apply classify_private in E as [Hm Hp].
    rewrite (api_query_private remote self o method req w Hm Hp Ho).
    cbn [fst snd]. rewrite after_private_issued. eexists. split; [reflexivity|].
    unfold reply. split; intros ? ->; reflexivity.
Qed.

End Wrapper_facts.

(* ===================================================================== *)
(** ** One attempt per call *)
(* ===================================================================== *)

Section Attempts.

Variable remote : list http_request -> http_request -> outcome response.
Variable rt : runtime.

Lemma one_attempt_none {A} (m : M A) :
  (forall w, w_sent (snd (m w)) = w_sent w) -> one_attempt m.
Proof.
  intros H w. exists []. rewrite H, app_nil_r. repeat split; [simpl; lia|constructor].
Qed.

Lemma one_attempt_after {A B} (m : M A) (k : A -> M B) :
  (forall w, w_sent (snd (m w)) = w_sent w) ->
  (forall a, one_attempt (k a)) ->
  one_attempt (bind m k).
Proof.
  intros Hm Hk w. unfold bind. specialize (Hm w).
  destruct (m w) as [[a|e] w1]; cbn [snd] in *.
  - rewrite <- Hm. apply Hk.
  - exists []. rewrite Hm, app_nil_r. repeat split; [simpl; lia|constructor].
Qed.

Lemma one_attempt_api_query self method req : one_attempt (api_query remote self method req).
Proof.
  intros w.
  destruct (Spec.market_prefix method) eqn:Hm.
  - rewrite (api_query_market remote self method req w Hm). cbn [snd set_sent w_sent].
    eexists. split; [reflexivity|]. split; [simpl; lia|].
    repeat constructor.
  - destruct (Spec.private_member method) eqn:Hp.
    + destruct (w_objs w !! self) as [o|] eqn:Ho.
      * rewrite (api_query_private remote self o method req w Hm Hp Ho).
        unfold after_private. cbn [snd set_sent w_sent].
        eexists. split; [reflexivity|]. split; [simpl; lia|].
        repeat constructor.
      * rewrite (api_query_private_no_instance remote self method req w Hm Hp Ho).
        cbn [snd]. exists []. rewrite after_default_sent, app_nil_r.
        repeat split; [simpl; lia|constructor].
    + rewrite (api_query_other remote self method req w Hm Hp).
      cbn [snd]. exists []. rewrite after_default_sent, app_nil_r.
      repeat split; [simpl; lia|constructor].
Qed.

Lemma one_attempt_query_text self method req :
  one_attempt (query_text remote self method req).
Proof.
  intros w. rewrite query_text_eq. cbn [snd]. apply one_attempt_api_query.
Qed.

Lemma one_attempt_invoke self c : one_attempt (invoke remote rt self c).
Proof.
  destruct c; cbn [invoke];
    unfold markets, market_info, market_order_history, market_open_orders,
      get_balances, get_balance, get_deposits, get_withdrawals,
      get_new_deposit_address, get_deposit_address, my_open_orders,
      my_open_orders_market, cancel_order, withdraw, trade, trade_history,
      get_deposit_history, get_withdrawal_history, wallet_status;
    cbv zeta;
    repeat match goal with
           | |- one_attempt (bind (of_outcome _) _) =>
               apply one_attempt_after; [reflexivity|intros ?]
           | |- one_attempt (query_text _ _ _ _) => apply one_attempt_query_text
           | |- one_attempt (bind (new_dict _) _) =>
               apply one_attempt_after; [reflexivity|intros ?]
           | |- one_attempt (ret _) => apply one_attempt_none; reflexivity
           | |- one_attempt (if ?b then _ else _) => destruct b
           | |- one_attempt (match ?x with _ => _ end) => destruct x
           end.
Qed.

(** X8. Whatever a program does with the class (constructing instances,
    calling any method with any arguments, at any clock readings, against
    any remote side), each action issues at most one request: after [n]
    actions at most [n] requests have been added, after the earlier ones and
    none of those removed; every one of them carries the 60-second timeout.
    Nothing is retried. *)
Theorem X8_one_attempt_per_call (acts : list (Q * action)) (w : world) :
  exists rqs : list http_request,
    w_sent (run remote rt acts w) = w_sent w ++ rqs /\
    (length rqs <= length acts)%nat /\
    Forall (fun rq => rq_timeout rq = Some 60) rqs.
Proof.
  revert w. induction acts as [|[t a] acts IH]; intros w; cbn [run].
  - exists []. rewrite app_nil_r. repeat split; [simpl; lia|constructor].
  - assert (Hstep : exists rqs1,
              w_sent (perform remote rt a (set_now t w)) = w_sent w ++ rqs1 /\
              (length rqs1 <= 1)%nat /\
              Forall (fun rq => rq_timeout rq = Some 60) rqs1).
    { destruct a as [k s|self c]; unfold perform.
      - exists []. rewrite init_objs, app_nil_r.
        repeat split; [simpl; lia|constructor].
      - apply (one_attempt_invoke self c (set_now t w)). }
    destruct Hstep as (rqs1 & E1 & L1 & F1).
    destruct (IH (perform remote rt a (set_now t w))) as (rqs2 & E2 & L2 & F2).
    exists (rqs1 ++ rqs2). rewrite E2, E1, app_assoc.
    split; [reflexivity|]. split.
    + rewrite length_app. simpl. lia.
    + now apply Forall_app.
Qed.

End Attempts.

(* ===================================================================== *)
(** ** Which dicts a call writes *)
(* ===================================================================== *)

Section Frame.

Variable remote : list http_request -> http_request -> outcome response.
Variable rt : runtime.

Lemma writes_only_api_query self method req :
  writes_only req (api_query remote self method req).
Proof.
  intros w l' d Hne Hl.
  destruct (Spec.market_prefix method) eqn:Hm.
  - rewrite (api_query_market remote self method req w Hm). cbn [snd set_sent w_dicts].
    now apply after_default_dicts.
  - destruct (Spec.private_member method) eqn:Hp.
    + destruct (w_objs w !! self) as [o|] eqn:Ho.
      * rewrite (api_query_private remote self o method req w Hm Hp Ho). cbn [snd].
        rewrite after_private_frame; [now apply after_default_dicts|].
        apply lookup_lt_Some in Hl.
        unfold bound_req. destruct req as [l|]; [|lia].
        destruct (replaced (Some l) w); [lia|congruence].
      * rewrite (api_query_private_no_instance remote self method req w Hm Hp Ho).
        cbn [snd]. now apply after_default_dicts.
    + rewrite (api_query_other remote self method req w Hm Hp). cbn [snd].
      now apply after_default_dicts.
Qed.

Lemma writes_only_query_text self method req :
  writes_only req (query_text remote self method req).
Proof.
  intros w l' d Hne Hl. rewrite query_text_eq. cbn [snd].
  now apply writes_only_api_query.
Qed.

(** A wrapper's own dict is not one the caller can hold. *)
Lemma writes_only_own_dict self method (d0 : gmap string pyval) :
  writes_only None
    (bind (new_dict d0) (fun req => query_text remote self method (Some req))).
Proof.
  intros w l' d _ Hl. unfold bind at 1. unfold new_dict. cbv beta iota.
  apply writes_only_query_text.
  - apply lookup_lt_Some in Hl. intros [= ->]. lia.
  - cbn [w_dicts set_dicts]. now apply lookup_app_l_Some.
Qed.

(** X9. A method call changes no dict of the store but the one handed to
    [api_query] as [req]: the wrappers, which build their parameters
    themselves, leave every dict the caller holds as it is. This holds
    whether the call returns or raises. *)
Theorem X9_a_call_writes_only_the_dict_it_is_given
    (self : loc) (c : call) (w : world) (l : loc) (d : gmap string pyval) :
  (forall method : string, c <> Api_query method (Some l)) ->
  w_dicts w !! l = Some d ->
  w_dicts (snd (invoke remote rt self c w)) !! l = Some d.
Proof.
  intros Hc Hl.
  assert (Hnone : forall method, w_dicts (snd (query_text remote self method None w)) !! l
                                 = Some d).
  { intros method. now apply writes_only_query_text. }
  destruct c; cbn [invoke];
    unfold markets, market_info, market_order_history, market_open_orders,
      get_balances, get_balance, get_deposits, get_withdrawals,
      get_new_deposit_address, get_deposit_address, my_open_orders,
      my_open_orders_market, cancel_order, withdraw, trade, trade_history,
      get_deposit_history, get_withdrawal_history, wallet_status;
    try apply Hnone.
  - apply writes_only_query_text; [|exact Hl].
    intros <-. now apply (Hc method).
  - destruct (bool_decide _); [apply Hnone|exact Hl].
  - now apply writes_only_own_dict.
  - cbv zeta. unfold bind at 1, of_outcome at 1.
    destruct (py_int rt tradebase) as [b|e]; [cbv beta iota|exact Hl].
    unfold bind at 1, of_outcome at 1.
    destruct (py_float rt tradeamount) as [a|e]; [cbv beta iota|exact Hl].
    unfold bind at 1, of_outcome at 1.
    destruct (py_float rt tradeprice) as [p|e]; [cbv beta iota|exact Hl].
    destruct (_ || _)%bool; [|exact Hl].
    destruct (_ || _)%bool; [|exact Hl].
    now apply writes_only_own_dict.
  - destruct currency; apply Hnone.
Qed.

End Frame.

Lemma X9_witness :
  w_dicts (snd (invoke Sample.remote Sample.builtins 0%nat
                  (Withdraw "BTC" (1 # 2) "KF2yLFLcZwYigRDw5Uo9U4B9hEaLqwkVxL")
                  Sample.world0)) !! 0%nat
  = Some Sample.params.
Proof.
  apply (X9_a_call_writes_only_the_dict_it_is_given
           Sample.remote Sample.builtins 0%nat
           (Withdraw "BTC" (1 # 2) "KF2yLFLcZwYigRDw5Uo9U4B9hEaLqwkVxL")
           Sample.world0 0%nat Sample.params).
  - discriminate.
  - reflexivity.
Defined.

(* ===================================================================== *)
(** ** What the signature covers, and when nonces repeat *)
(* ===================================================================== *)

Section Signature_scope.

Variable remote : list http_request -> http_request -> outcome response.

Lemma private_request_signature key secret method nonce items :
  fields_named "signature" (Spec.private_request key secret method nonce items)
  = [PBytes (Spec.signature secret (Spec.canonical_url method nonce))].
Proof. eapply fields_named_bound; [reflexivity|]. apply lookup_insert_eq. Qed.

Lemma private_request_apikey key secret method nonce items :
  fields_named "apikey" (Spec.private_request key secret method nonce items)
  = [PStr key].
Proof.
  eapply fields_named_bound; [reflexivity|].
  rewrite lookup_insert_ne by discriminate. apply lookup_insert_eq.
Qed.

(** X10. The signature of a [withdraw] covers the URL only: two withdrawals
    of the same currency at the same clock reading are sent to the same URL
    with the same signature, whatever their amounts and addresses. *)
Theorem X10_withdraw_signature_ignores_amount_and_address
    (self : loc) (o : NovaExchange) (currency : string)
    (amount1 amount2 : Q) (address1 address2 : string) (w : world) :
  w_objs w !! self = Some o ->
  let sent1 := issued w (snd (withdraw remote self currency amount1 address1 w)) in
  let sent2 := issued w (snd (withdraw remote self currency amount2 address2 w)) in
  let url := Spec.canonical_url ("withdraw/" +:+ currency)
               (Py.str_int (Py.int_float (w_now w))) in
  rq_url <$> sent1 = [url] /\
  rq_url <$> sent2 = [url] /\
  fields_named "signature" <$> sent1 = [[PBytes (Spec.signature (api_secret o) url)]] /\
  fields_named "signature" <$> sent2 = fields_named "signature" <$> sent1.
Proof.
  intros Ho. cbv zeta. unfold withdraw.
  rewrite !(query_text_own_dict remote self o) by
    (try reflexivity; try exact Ho; apply insert_non_empty).
  cbv zeta. cbn [snd]. rewrite !issued_one.
  cbn [fmap list_fmap]. rewrite !private_request_signature.
  repeat split.
Qed.

(** X11. Two private calls with the same method whose clock readings fall in
    the same whole second carry the same nonce: they go to the same URL with
    the same signature. *)
Theorem X11_same_second_same_nonce_and_signature
    (self : loc) (o : NovaExchange) (method : string) (req1 req2 : option loc)
    (w : world) (t1 t2 : Q) :
  w_objs w !! self = Some o ->
  Spec.classify method = Spec.Private ->
  Py.int_float t1 = Py.int_float t2 ->
  let w1 := snd (api_query remote self method req1 (set_now t1 w)) in
  let w2 := snd (api_query remote self method req2 (set_now t2 w1)) in
  exists rq1 rq2 : http_request,
    issued w w1 = [rq1] /\ issued w1 w2 = [rq2] /\
    rq_url rq1 = rq_url rq2 /\
    fields_named "signature" rq1 = fields_named "signature" rq2.
Proof.
  intros Ho [Hm Hp]%classify_private Ht. cbv zeta.
  rewrite (api_query_private remote self o method req1 (set_now t1 w) Hm Hp Ho).
  cbn [snd].
  set (w1 := after_private o method req1 (set_now t1 w)).
  assert (Ho1 : w_objs (set_now t2 w1) !! self = Some o).
  { subst w1. now rewrite set_now_objs, after_private_objs. }
  rewrite (api_query_private remote self o method req2 (set_now t2 w1) Hm Hp Ho1).
  cbn [snd].
  pose proof (after_private_issued o method req1 (set_now t1 w)) as I1.
  pose proof (after_private_issued o method req2 (set_now t2 w1)) as I2.
  fold w1 in I1. unfold issued in *. cbn [w_sent set_now w_now] in I1, I2.
  eexists. eexists. split; [exact I1|]. split; [exact I2|].
  rewrite !private_request_signature. cbn [rq_url Spec.private_request].
  now rewrite Ht.
Qed.

(** [int] is monotone. *)
Lemma int_float_mono (t1 t2 : Q) :
  (t1 <= t2)%Q -> Py.int_float t1 <= Py.int_float t2.
Proof.
  destruct t1 as [a b], t2 as [c d]. unfold Qle, Py.int_float. simpl. intros H.
  rewrite <- (Z.quot_mul_cancel_r a (Z.pos b) (Z.pos d)) by lia.
  rewrite <- (Z.quot_mul_cancel_r c (Z.pos d) (Z.pos b)) by lia.
  rewrite (Z.mul_comm (Z.pos d) (Z.pos b)).
  apply Z.quot_le_mono; lia.
Qed.

(** X12. While the clock does not go back, the nonce does not decrease: of
    two private calls the later one carries a number at least as large, on
    either side of the epoch. *)
Theorem X12_nonce_never_decreases
    (self : loc) (o : NovaExchange) (method1 method2 : string)
    (req1 req2 : option loc) (w : world) (t1 t2 : Q) :
  w_objs w !! self = Some o ->
  Spec.classify method1 = Spec.Private ->
  Spec.classify method2 = Spec.Private ->
  (t1 <= t2)%Q ->
  let w1 := snd (api_query remote self method1 req1 (set_now t1 w)) in
  let w2 := snd (api_query remote self method2 req2 (set_now t2 w1)) in
  exists n1 n2 : Z,
    rq_url <$> issued w w1 = [Spec.canonical_url method1 (Py.str_int n1)] /\
    rq_url <$> issued w1 w2 = [Spec.canonical_url method2 (Py.str_int n2)] /\
    n1 <= n2.
Proof.
  intros Ho [Hm1 Hp1]%classify_private [Hm2 Hp2]%classify_private Ht. cbv zeta.
  rewrite (api_query_private remote self o method1 req1 (set_now t1 w) Hm1 Hp1 Ho).
  cbn [snd].
  set (w1 := after_private o method1 req1 (set_now t1 w)).
  assert (Ho1 : w_objs (set_now t2 w1) !! self = Some o).
  { subst w1. now rewrite set_now_objs, after_private_objs. }
  rewrite (api_query_private remote self o method2 req2 (set_now t2 w1) Hm2 Hp2 Ho1).
  cbn [snd].
  pose proof (after_private_issued o method1 req1 (set_now t1 w)) as I1.
  pose proof (after_private_issued o method2 req2 (set_now t2 w1)) as I2.
  fold w1 in I1. unfold issued in *. cbn [w_sent set_now w_now] in I1, I2.
  rewrite I1, I2.
  exists (Py.int_float t1), (Py.int_float t2).
  split; [reflexivity|]. split; [reflexivity|]. now apply int_float_mono.
Qed.

End Signature_scope.

(* ===================================================================== *)
(** ** Edges of [__init__] and [api_query] *)
(* ===================================================================== *)

Section Edges.

Variable remote : list http_request -> http_request -> outcome response.

(** X13. A client constructed without key and secret is not stopped on the
    private path: the request is issued with an empty [apikey] field and a
    signature keyed by the empty secret. *)
Theorem X13_missing_credentials_are_sent_empty
    (method : string) (req : option loc) (w : world) :
  Spec.classify method = Spec.Private ->
  let self := length (w_objs w) in
  let w1 := snd (__init__ None None w) in
  exists rq : http_request,
    issued w1 (snd (api_query remote self method req w1)) = [rq] /\
    rq_verb rq = POST /\
    fields_named "apikey" rq = [PStr ""] /\
    fields_named "signature" rq =
      [PBytes (Base64.b64encode
                 (HMAC.hmac_sha512 (Py.encode_utf8 "") (Py.encode_utf8 (rq_url rq))))].
Proof.
  intros [Hm Hp]%classify_private. cbv zeta.
  rewrite init_objs. cbn [snd default from_option].
  set (w1 := set_objs _ w).
  assert (Ho : w_objs w1 !! length (w_objs w) = Some (mkNovaExchange "" "")).
  { subst w1. cbn [w_objs set_objs]. rewrite lookup_app_r by lia.
    now rewrite Nat.sub_diag. }
  rewrite (api_query_private remote _ _ method req w1 Hm Hp Ho).
  cbn [snd]. rewrite after_private_issued.
  cbn [api_key api_secret].
  exists (Spec.private_request "" "" method
            (Py.str_int (Py.int_float (w_now w1))) (bound_items req w1)).
  split; [reflexivity|]. split; [reflexivity|].
  rewrite private_request_apikey, private_request_signature.
  split; reflexivity.
Qed.

(** X14. A mapping that is absent or empty is replaced by a new dict before
    anything is written: the form then holds [apikey] and [signature] only,
    the new dict is added at the end of the store, and every dict that was
    there, the caller's empty one included, is as it was. *)
Theorem X14_absent_or_empty_mapping_is_replaced
    (self : loc) (o : NovaExchange) (method : string) (req : option loc) (w : world) :
  w_objs w !! self = Some o ->
  Spec.classify method = Spec.Private ->
  (forall l, req = Some l -> w_dicts w !! l = Some ∅) ->
  let w' := snd (api_query remote self method req w) in
  exists d : gmap string pyval,
    rq_data <$> issued w w' = [Some d] /\
    dom d = ({["apikey"; "signature"]} : gset string) /\
    w_dicts w' = w_dicts w ++ [d].
Proof.
  intros Ho [Hm Hp]%classify_private Hreq. cbv zeta.
  rewrite (api_query_private remote self o method req w Hm Hp Ho). cbn [snd].
  assert (E : replaced req w = true).
  { destruct req as [l|]; [|reflexivity].
    unfold replaced. rewrite (Hreq l eq_refl). simpl. now apply bool_decide_eq_true. }
  assert (Eb : bound_req req w = length (w_dicts w)).
  { unfold bound_req. rewrite E. now destruct req. }
  assert (Ei : bound_items req w = ∅).
  { unfold bound_items. rewrite E. now destruct req. }
  rewrite after_private_issued. unfold after_private, after_default.
  rewrite E, Eb, Ei. cbn [w_dicts set_sent set_dicts rq_data Spec.private_request
                           default from_option fmap list_fmap].
  eexists. split; [reflexivity|]. split.
  - rewrite !dom_insert_L, dom_empty_L. set_solver.
  - rewrite insert_app_r_alt by lia. now rewrite Nat.sub_diag.
Qed.

(** X15. What follows the first slash never changes the path a method string
    takes: [{name}/{rest}] is dispatched as [name] is. *)
Theorem X15_path_arguments_do_not_change_the_family
    (self : loc) (name rest : string) (req : option loc) (w : world) :
  Spec.first_segment name = name ->
  verbs_issued w (snd (api_query remote self (name +:+ "/" +:+ rest) req w))
  = verbs_issued w (snd (api_query remote self name req w)).
Proof.
  intros Hname.
  assert (Hseg : Spec.first_segment (name +:+ "/" +:+ rest) = Spec.first_segment name).
  { rewrite Hname. now apply first_segment_name. }
  assert (Hm : Spec.market_prefix (name +:+ "/" +:+ rest) = Spec.market_prefix name).
  { unfold Spec.market_prefix. now rewrite Hseg. }
  assert (Hp : Spec.private_member (name +:+ "/" +:+ rest) = Spec.private_member name).
  { unfold Spec.private_member. now rewrite Hseg. }
  unfold verbs_issued.
  destruct (Spec.market_prefix name) eqn:Em.
  - rewrite !api_query_market by congruence. cbn [snd]. now rewrite !issued_one.
  - destruct (Spec.private_member name) eqn:Ep.
    + destruct (w_objs w !! self) as [o|] eqn:Ho.
      * rewrite !(api_query_private remote self o) by congruence.
        cbn [snd]. now rewrite !after_private_issued.
      * rewrite !api_query_private_no_instance by congruence.
        cbn [snd]. now rewrite !issued_none by apply after_default_sent.
    + rewrite !api_query_other by congruence.
      cbn [snd]. now rewrite !issued_none by apply after_default_sent.
Qed.

(** X16. A method string that is empty or begins with a slash has an empty
    first segment: nothing is sent and the call raises on the unbound
    local. *)
Theorem X16_empty_first_segment_raises
    (self : loc) (rest : string) (req : option loc) (w : world) :
  (fst (api_query remote self "" req w) = Raise (UnboundLocalError "r") /\
   issued w (snd (api_query remote self "" req w)) = []) /\
  (fst (api_query remote self ("/" +:+ rest) req w) = Raise (UnboundLocalError "r") /\
   issued w (snd (api_query remote self ("/" +:+ rest) req w)) = []).
Proof.
  rewrite !api_query_other by reflexivity. cbn [fst snd].
  rewrite !issued_none by apply after_default_sent. repeat split.
Qed.

(** X17. A mapping can be used again: the entries a first private call left
    in it are overwritten by the second, whose form is what it would have
    been had the first call not been made. *)
Theorem X17_reused_mapping_carries_nothing_over
    (self : loc) (o : NovaExchange) (method1 method2 : string) (l : loc)
    (d : gmap string pyval) (w : world) (t1 t2 : Q) :
  w_objs w !! self = Some o ->
  Spec.classify method1 = Spec.Private ->
  Spec.classify method2 = Spec.Private ->
  w_dicts w !! l = Some d ->
  d <> ∅ ->
  let w1 := snd (api_query remote self method1 (Some l) (set_now t1 w)) in
  let again := snd (api_query remote self method2 (Some l) (set_now t2 w1)) in
  let alone := snd (api_query remote self method2 (Some l) (set_now t2 w)) in
  rq_data <$> issued w1 again = rq_data <$> issued w alone /\
  rq_url <$> issued w1 again = rq_url <$> issued w alone /\
  w_dicts again = w_dicts alone.
Proof.
  intros Ho [Hm1 Hp1]%classify_private [Hm2 Hp2]%classify_private Hl Hd. cbv zeta.
  rewrite (api_query_private remote self o method1 (Some l) (set_now t1 w) Hm1 Hp1 Ho).
  cbn [snd].
  set (w1 := after_private o method1 (Some l) (set_now t1 w)).
  assert (Ho1 : w_objs (set_now t2 w1) !! self = Some o).
  { subst w1. now rewrite set_now_objs, after_private_objs. }
  rewrite (api_query_private remote self o method2 (Some l) (set_now t2 w1) Hm2 Hp2 Ho1).
  rewrite (api_query_private remote self o method2 (Some l) (set_now t2 w) Hm2 Hp2 Ho).
  cbn [snd].
  destruct (nonempty_not_replaced l d (set_now t1 w) Hl Hd) as (_ & Eb1 & Ei1 & Ew1).
  destruct (nonempty_not_replaced l d (set_now t2 w) Hl Hd) as (_ & Eb & Ei & Ew).
  pose proof (after_private_bound o method1 (Some l) (set_now t1 w)) as Hb1.
  rewrite Eb1, Ei1 in Hb1. fold w1 in Hb1.
  assert (Hl1 : w_dicts (set_now t2 w1) !! l = Some
            (<["signature" := PBytes (Spec.signature (api_secret o)
                (Spec.canonical_url method1
                   (Py.str_int (Py.int_float (w_now (set_now t1 w))))))]>
             (<["apikey" := PStr (api_key o)]> d))) by exact Hb1.
  destruct (nonempty_not_replaced l _ (set_now t2 w1) Hl1 (insert_non_empty _ _ _))
    as (_ & Eb2 & Ei2 & Ew2).
  assert (Hdicts : w_dicts w1 = <[l := <["signature" := PBytes (Spec.signature (api_secret o)
                (Spec.canonical_url method1
                   (Py.str_int (Py.int_float (w_now (set_now t1 w))))))]>
             (<["apikey" := PStr (api_key o)]> d)]> (w_dicts w)).
  { subst w1. unfold after_private. rewrite Eb1, Ei1, Ew1. reflexivity. }
  pose proof (after_private_issued o method2 (Some l) (set_now t2 w1)) as I2.
  pose proof (after_private_issued o method2 (Some l) (set_now t2 w)) as I.
  unfold issued in *. cbn [w_sent set_now w_now] in I2, I.
  rewrite I2, I, Ei2, Ei.
  cbn [fmap list_fmap rq_data rq_url Spec.private_request w_now set_now].
  assert (Hover : forall (s1 s2 : pyval),
    <["signature" := s2]> (<["apikey" := PStr (api_key o)]>
      (<["signature" := s1]> (<["apikey" := PStr (api_key o)]> d)))
    = <["signature" := s2]> (<["apikey" := PStr (api_key o)]> d)).
  { intros s1 s2. apply map_eq. intros k.
    rewrite !lookup_insert. repeat case_decide; congruence. }
  rewrite Hover.
  split; [reflexivity|]. split; [reflexivity|].
  unfold after_private. rewrite Eb2, Ei2, Ew2, Eb, Ei, Ew.
  cbn [w_dicts set_sent set_dicts set_now rq_data Spec.private_request
       default from_option w_now].
  rewrite Hdicts, list_insert_insert_eq, Hover. reflexivity.
Qed.

End Edges.

(* ===================================================================== *)
(** ** Arguments in the URL; the size of the signature *)
(* ===================================================================== *)

Section Url_facts.

Variable remote : list http_request -> http_request -> outcome response.

Lemma string_length_append (a b : string) :
  String.length (a +:+ b) = (String.length a + String.length b)%nat.
Proof. induction a as [|c a IH]; simpl; [reflexivity|]. now rewrite IH. Qed.

Lemma append_inv_tail (a b t : string) : a +:+ t = b +:+ t -> a = b.
Proof.
  revert b. induction a as [|c a IH]; intros [|c' b] H; simpl in H.
  - reflexivity.
  - apply (f_equal String.length) in H. simpl in H.
    rewrite !string_length_append in H. simpl in H. exfalso. lia.
  - apply (f_equal String.length) in H. simpl in H.
    rewrite !string_length_append in H. simpl in H. exfalso. lia.
  - injection H as -> H. f_equal. now apply IH.
Qed.

(** At one clock reading, different method strings have different URLs. *)
Lemma canonical_url_method_inj (m1 m2 nonce : string) :
  Spec.canonical_url m1 nonce = Spec.canonical_url m2 nonce -> m1 = m2.
Proof.
  unfold Spec.canonical_url. intros H.
  do 2 apply append_inv_head in H.
  now apply append_inv_tail in H.
Qed.

(** X18. The argument of a wrapper is written into the URL without loss: at
    one clock reading [get_balance] for two different currencies, and
    [cancel_order] for two different order numbers, go to different URLs. *)
Theorem X18_different_arguments_different_urls
    (self : loc) (o : NovaExchange) (currency1 currency2 : string)
    (order1 order2 : Z) (w : world) :
  w_objs w !! self = Some o ->
  (currency1 <> currency2 ->
   rq_url <$> issued w (snd (get_balance remote self currency1 w))
   <> rq_url <$> issued w (snd (get_balance remote self currency2 w))) /\
  (order1 <> order2 ->
   rq_url <$> issued w (snd (cancel_order remote self order1 w))
   <> rq_url <$> issued w (snd (cancel_order remote self order2 w))).
Proof.
  intros Ho. unfold get_balance, cancel_order.
  rewrite !(fun m H => query_text_private remote self o m None w H Ho) by reflexivity.
  cbn [snd]. rewrite !after_private_issued.
  cbn [fmap list_fmap rq_url Spec.private_request].
  split; intros Hne E; apply Hne;
    apply (f_equal (hd EmptyString)) in E; cbn [hd] in E;
    apply canonical_url_method_inj in E.
  - exact (append_inv_head "getbalance/" _ _ E).
  - apply str_int_inj. exact (append_inv_head "cancelorder/" _ _ E).
Qed.

Lemma be_encode_length (n : nat) (x : Z) : length (SHA512.be_encode n x) = n.
Proof.
  revert x. induction n as [|n IH]; intros x; simpl; [reflexivity|].
  rewrite length_app, IH. simpl. lia.
Qed.

Lemma compress_length (h block : list Z) :
  length h = 8%nat -> length (SHA512.compress h block) = 8%nat.
Proof.
  intros H. unfold SHA512.compress. cbv zeta.
  rewrite length_zip_with. rewrite H. reflexivity.
Qed.

Lemma digest_words_length (msg : list Z) : length (SHA512.digest_words msg) = 8%nat.
Proof.
  unfold SHA512.digest_words. cbv zeta.
  generalize (SHA512.chunks (length (SHA512.pad msg)) 128 (SHA512.pad msg)).
  assert (H0 : length SHA512.H0 = 8%nat) by reflexivity.
  revert H0. generalize SHA512.H0.
  intros h Hh blocks. revert h Hh.
  induction blocks as [|b blocks IH]; intros h Hh; simpl; [exact Hh|].
  apply IH. now apply compress_length.
Qed.

(** A SHA-512 digest has 64 bytes, whatever is hashed. *)
Lemma sha512_length (msg : list byte) : length (SHA512.sha512 msg) = 64%nat.
Proof.
  unfold SHA512.sha512. rewrite length_map.
  assert (Hcat : forall ws : list Z,
            length (concat (map (SHA512.be_encode 8) ws)) = (8 * length ws)%nat).
  { induction ws as [|x ws IH]; [reflexivity|].
    cbn [map concat]. rewrite length_app, be_encode_length, IH. simpl. lia. }
  rewrite Hcat, digest_words_length. reflexivity.
Qed.

Lemma hmac_sha512_length (key msg : list byte) :
  length (HMAC.hmac_sha512 key msg) = 64%nat.
Proof. unfold HMAC.hmac_sha512. cbv zeta. apply sha512_length. Qed.

(** Base64 writes four characters for every three bytes, or part of three. *)
Lemma b64encode_length (l : list byte) :
  length (Base64.b64encode l) = (4 * ((length l + 2) / 3))%nat.
Proof.
  remember (length l) as n eqn:Hn.
  revert l Hn. induction n as [n IH] using lt_wf_ind. intros l Hn.
  destruct l as [|a [|b [|c rest]]]; subst n; try reflexivity.
  change (Base64.b64encode (a :: b :: c :: rest)) with
    (Base64.enc3 (Byte.to_N a) (Byte.to_N b) (Byte.to_N c) ++ Base64.b64encode rest).
  rewrite length_app, (IH (length rest)) by (simpl; lia || reflexivity).
  cbn [length Base64.enc3].
  replace (S (S (S (length rest))) + 2)%nat with (1 * 3 + (length rest + 2))%nat by lia.
  rewrite Nat.div_add_l by lia. lia.
Qed.

(** X19. The signature a private call sends is always 88 bytes long: the
    base64 text of a 64-byte HMAC-SHA512 tag, whatever the secret, the
    method and the clock reading. *)
Theorem X19_signature_is_88_bytes
    (self : loc) (o : NovaExchange) (method : string) (req : option loc) (w : world) :
  w_objs w !! self = Some o ->
  Spec.classify method = Spec.Private ->
  exists (rq : http_request) (sig : list byte),
    issued w (snd (api_query remote self method req w)) = [rq] /\
    fields_named "signature" rq = [PBytes sig] /\
    length sig = 88%nat.
Proof.
  intros Ho [Hm Hp]%classify_private.
  rewrite (api_query_private remote self o method req w Hm Hp Ho).
  cbn [snd]. rewrite after_private_issued.
  eexists. eexists. split; [reflexivity|].
  split; [apply private_request_signature|].
  unfold Spec.signature. rewrite b64encode_length, hmac_sha512_length. reflexivity.
Qed.

End Url_facts.

(* ===================================================================== *)
(** ** The properties above at concrete inputs *)
(* ===================================================================== *)

Lemma X3_witness :
  issued Sample.world0 (snd (get_balances Sample.remote 0%nat Sample.world0))
  = [Spec.private_request (api_key Sample.client) (api_secret Sample.client)
       "getbalances" (Py.str_int (Py.int_float (w_now Sample.world0))) ∅].
Proof.
  destruct (X3_plain_private_wrappers_post_key_and_signature
              Sample.remote 0%nat Sample.client Sample.world0) as (H & _).
  - reflexivity.
  - exact H.
Defined.

Lemma X4_witness :
  issued Sample.world0 (snd (get_balance Sample.remote 0%nat "market/BTC" Sample.world0))
  = [Spec.private_request (api_key Sample.client) (api_secret Sample.client)
       ("getbalance/" +:+ "market/BTC")
       (Py.str_int (Py.int_float (w_now Sample.world0))) ∅].
Proof.
  destruct (X4_argument_wrappers_stay_private
              Sample.remote 0%nat Sample.client "market/BTC" 258 Sample.world0)
    as (H & _).
  - reflexivity.
  - exact H.
Defined.

Lemma X5_witness :
  exists (rq : http_request) (d : gmap string pyval),
    issued Sample.world0
      (snd (withdraw Sample.remote 0%nat "MEOW" (100012345678 # 100000000)
              "KF2yLFLcZwYigRDw5Uo9U4B9hEaLqwkVxL" Sample.world0)) = [rq] /\
    rq_data rq = Some d /\
    length (form_fields rq) = 5%nat /\
    d !! "amount" = Some (PFloat (100012345678 # 100000000)).
Proof.
  destruct (X5_withdraw_posts_five_fields
              Sample.remote 0%nat Sample.client "MEOW" (100012345678 # 100000000)
              "KF2yLFLcZwYigRDw5Uo9U4B9hEaLqwkVxL" Sample.world0)
    as (rq & d & H1 & _ & _ & H2 & _ & H3 & _ & H4 & _).
  - reflexivity.
  - exists rq, d. split; [exact H1|]. split; [exact H2|]. split; [exact H3|exact H4].
Defined.

Lemma X6_witness :
  issued Sample.world0
    (snd (trade Sample.remote Sample.builtins 0%nat "LTC_MEOW" (OStr "SELL")
            (OInt 8000) (OFloat (Finite (8 # 100000000))) (OStr "1") Sample.world0))
  = [Spec.private_request (api_key Sample.client) (api_secret Sample.client)
       ("trade/" +:+ "LTC_MEOW")
       (Py.str_int (Py.int_float (w_now Sample.world0)))
       (<["tradetype" := PStr (py_str Sample.builtins (OStr "SELL"))]>
        (<["tradebase" := PInt 1]>
         (<["tradeprice" := val_of_float (Finite (8 # 100000000))]>
          (<["tradeamount" := val_of_float (Finite (inject_Z 8000))]> ∅))))].
Proof.
  destruct (X6_trade_dispatches_iff_valid
              Sample.remote Sample.builtins 0%nat Sample.client "LTC_MEOW" (OStr "SELL")
              (OInt 8000) (OFloat (Finite (8 # 100000000))) (OStr "1")
              1 (Finite (inject_Z 8000)) (Finite (8 # 100000000)) Sample.world0)
    as ((_ & H) & _).
  - reflexivity.
  - reflexivity.
  - reflexivity.
  - reflexivity.
  - apply H. simpl. tauto.
Defined.

Lemma X21_witness :
  let result := trade Sample.remote Sample.builtins 0%nat "LTC_MEOW" (OStr "HOLD")
                  (OStr "a lot") (OFloat (Finite (1 # 2))) (OInt 0) Sample.world0 in
  fst result = Raise ValueError /\ snd result = Sample.world0 /\
  issued Sample.world0 (snd result) = [].
Proof.
  apply (X21_trade_conversion_errors_reach_the_caller
           Sample.remote Sample.builtins 0%nat "LTC_MEOW" (OStr "HOLD")
           (OStr "a lot") (OFloat (Finite (1 # 2))) (OInt 0) ValueError Sample.world0).
  right. exists 0. split; [reflexivity|]. left. reflexivity.
Defined.

Lemma X7_witness :
  exists rq : http_request,
    issued Sample.world0
      (snd (api_query Sample.unreachable 0%nat "tradehistory" None Sample.world0)) = [rq] /\
    fst (api_query Sample.unreachable 0%nat "tradehistory" None Sample.world0)
    = Raise (RequestException "ConnectionError").
Proof.
  destruct (X7_api_query_returns_what_the_transport_gives
              Sample.unreachable 0%nat Sample.client "tradehistory" None Sample.world0)
    as (rq & H1 & _ & H3).
  - reflexivity.
  - vm_compute. discriminate.
  - exists rq. split; [exact H1|]. apply H3. reflexivity.
Defined.

Lemma X10_witness :
  fields_named "signature" <$>
    issued Sample.world0
      (snd (withdraw Sample.remote 0%nat "BTC" (1 # 100) "attacker" Sample.world0))
  = fields_named "signature" <$>
      issued Sample.world0
        (snd (withdraw Sample.remote 0%nat "BTC" (5 # 1) "owner" Sample.world0)).
Proof.
  destruct (X10_withdraw_signature_ignores_amount_and_address
              Sample.remote 0%nat Sample.client "BTC" (5 # 1) (1 # 100) "owner" "attacker"
              Sample.world0) as (_ & _ & _ & H).
  - reflexivity.
  - exact H.
Defined.

Lemma X11_witness :
  exists rq1 rq2 : http_request,
    let w := Sample.world0 in
    let w1 := snd (api_query Sample.remote 0%nat "getdeposits" None
                     (set_now (6800000001 # 4) w)) in
    let w2 := snd (api_query Sample.remote 0%nat "getdeposits" None
                     (set_now (6800000003 # 4) w1)) in
    issued w w1 = [rq1] /\ issued w1 w2 = [rq2] /\
    rq_url rq1 = rq_url rq2 /\
    fields_named "signature" rq1 = fields_named "signature" rq2.
Proof.
  apply (X11_same_second_same_nonce_and_signature
           Sample.remote 0%nat Sample.client "getdeposits" None None Sample.world0
           (6800000001 # 4) (6800000003 # 4)).
  - reflexivity.
  - vm_compute. reflexivity.
  - reflexivity.
Defined.

Lemma X12_witness :
  exists n1 n2 : Z,
    let w := Sample.world0 in
    let w1 := snd (api_query Sample.remote 0%nat "getdeposits" None
                     (set_now (-7 # 2) w)) in
    let w2 := snd (api_query Sample.remote 0%nat "walletstatus/LTC" None
                     (set_now (7 # 2) w1)) in
    rq_url <$> issued w w1 = [Spec.canonical_url "getdeposits" (Py.str_int n1)] /\
    rq_url <$> issued w1 w2 = [Spec.canonical_url "walletstatus/LTC" (Py.str_int n2)] /\
    n1 <= n2.
Proof.
  apply (X12_nonce_never_decreases
           Sample.remote 0%nat Sample.client "getdeposits" "walletstatus/LTC" None None
           Sample.world0 (-7 # 2) (7 # 2)).
  - reflexivity.
  - vm_compute. reflexivity.
  - vm_compute. reflexivity.
  - unfold Qle. simpl. lia.
Defined.

Lemma X13_witness :
  exists rq : http_request,
    issued (snd (__init__ None None Sample.world0))
      (snd (api_query Sample.remote 1%nat "getbalances" None
              (snd (__init__ None None Sample.world0)))) = [rq] /\
    rq_verb rq = POST /\
    fields_named "apikey" rq = [PStr ""] /\
    fields_named "signature" rq =
      [PBytes (Base64.b64encode
                 (HMAC.hmac_sha512 (Py.encode_utf8 "") (Py.encode_utf8 (rq_url rq))))].
Proof.
  apply (X13_missing_credentials_are_sent_empty
           Sample.remote "getbalances" None Sample.world0).
  vm_compute. reflexivity.
Defined.

Lemma X14_witness :
  exists d : gmap string pyval,
    let w := mkWorld (1 # 1) [∅] [Sample.client] [] in
    let w' := snd (api_query Sample.remote 0%nat "getbalances" (Some 0%nat) w) in
    rq_data <$> issued w w' = [Some d] /\
    dom d = ({["apikey"; "signature"]} : gset string) /\
    w_dicts w' = [∅; d].
Proof.
  apply (X14_absent_or_empty_mapping_is_replaced
           Sample.remote 0%nat Sample.client "getbalances" (Some 0%nat)
           (mkWorld (1 # 1) [∅] [Sample.client] [])).
  - reflexivity.
  - vm_compute. reflexivity.
  - intros l [= <-]. reflexivity.
Defined.

Lemma X15_witness :
  verbs_issued Sample.world0
    (snd (api_query Sample.remote 0%nat ("markets" +:+ "/" +:+ "getbalances") None
            Sample.world0))
  = verbs_issued Sample.world0
      (snd (api_query Sample.remote 0%nat "markets" None Sample.world0)).
Proof.
  apply (X15_path_arguments_do_not_change_the_family
           Sample.remote 0%nat "markets" "getbalances" None Sample.world0).
  reflexivity.
Defined.

Lemma X17_witness :
  let w := Sample.world0 in
  let w1 := snd (api_query Sample.remote 0%nat "getbalance/BTC" (Some 0%nat)
                   (set_now (10 # 1) w)) in
  let again := snd (api_query Sample.remote 0%nat "withdraw/BTC" (Some 0%nat)
                      (set_now (20 # 1) w1)) in
  let alone := snd (api_query Sample.remote 0%nat "withdraw/BTC" (Some 0%nat)
                      (set_now (20 # 1) w)) in
  rq_data <$> issued w1 again = rq_data <$> issued w alone /\
  rq_url <$> issued w1 again = rq_url <$> issued w alone /\
  w_dicts again = w_dicts alone.
Proof.
  apply (X17_reused_mapping_carries_nothing_over
           Sample.remote 0%nat Sample.client "getbalance/BTC" "withdraw/BTC" 0%nat
           Sample.params Sample.world0 (10 # 1) (20 # 1)).
  - reflexivity.
  - vm_compute. reflexivity.
  - vm_compute. reflexivity.
  - reflexivity.
  - apply insert_non_empty.
Defined.

Lemma X18_witness :
  rq_url <$> issued Sample.world0 (snd (get_balance Sample.remote 0%nat "BTC" Sample.world0))
  <> rq_url <$> issued Sample.world0
                  (snd (get_balance Sample.remote 0%nat "BTC/" Sample.world0)) /\
  rq_url <$> issued Sample.world0 (snd (cancel_order Sample.remote 0%nat 258 Sample.world0))
  <> rq_url <$> issued Sample.world0
                  (snd (cancel_order Sample.remote 0%nat (-258) Sample.world0)).
Proof.
  destruct (X18_different_arguments_different_urls
              Sample.remote 0%nat Sample.client "BTC" "BTC/" 258 (-258) Sample.world0)
    as (H1 & H2).
  - reflexivity.
  - split; [apply H1|apply H2]; discriminate.
Defined.

Lemma X19_witness :
  exists (rq : http_request) (sig : list byte),
    issued Sample.world0
      (snd (api_query Sample.remote 0%nat "getbalances" None Sample.world0)) = [rq] /\
    fields_named "signature" rq = [PBytes sig] /\
    length sig = 88%nat.
Proof.
  apply (X19_signature_is_88_bytes
           Sample.remote 0%nat Sample.client "getbalances" None Sample.world0).
  - reflexivity.
  - vm_compute. reflexivity.
Defined.
